(** * RHBot-v2: the token-accounting dispatcher

    A shallow embedding of [num_tokens_from_messages] (src/rhbot/utils.py)
    and the properties its specification states about it.

    Python values are an inductive type, a [dict] is an association list in
    insertion order, an exception is a value of [exn] and a computation that
    may raise returns a [result].  The remote branch writes to the logger and
    talks to the network: both are threaded through an explicit [world]
    (the log written so far, the requests issued so far).  The tokenizers
    and the HTTP endpoint are collaborators that live outside the repository:
    they are variables of the section that holds the function. *)

From Stdlib Require Import String Ascii List ZArith Lia Bool Permutation.
From Stdlib Require Import DecimalString DecimalZ DecimalPos.
Import ListNotations.

Open Scope string_scope.
Open Scope Z_scope.

(** ** Python values, exceptions, results *)

(** The classes raised by the code and by its collaborators.  Every class
    here derives from [Exception], which is what [except Exception] catches;
    signals that derive from [BaseException] only (task cancellation,
    interpreter exit) belong to the scheduler and are not modelled. *)
Inductive exn : Type :=
| KeyError (key : string)
| TypeError (msg : string)
| ValueError (msg : string)
| ClientError (msg : string)
| ContentTypeError (msg : string).

Inductive result (A : Type) : Type :=
| Ok (a : A)
| Raise (e : exn).
Arguments Ok {A} a.
Arguments Raise {A} e.

Definition is_ok {A} (r : result A) : bool :=
  match r with Ok _ => true | Raise _ => false end.

(** What a caller sees of a result when it does not look at the exception. *)
Definition returned {A} (r : result A) : option A :=
  match r with Ok a => Some a | Raise _ => None end.

Definition rbind {A B} (r : result A) (k : A -> result B) : result B :=
  match r with Ok a => k a | Raise e => Raise e end.

Notation "x <- r ;; k" := (rbind r (fun x => k))
  (at level 61, r at next level, right associativity).

(** [try: body / except Exception as e: handler e] around code that has no
    effect on the world. *)
Definition rcatch {A} (body : result A) (handler : exn -> result A)
  : result A :=
  match body with Ok a => Ok a | Raise e => handler e end.

#[warnings="-register-all"] Inductive pyval : Type :=
| PNone
| PBool (b : bool)
| PInt (z : Z)
| PStr (s : string)
| PList (l : list pyval)
| PDict (d : list (string * pyval)).

(** A message is a [dict] with string keys; [items] are in insertion order. *)
Definition message : Type := list (string * pyval).

(** Keys of a [dict] are pairwise distinct. *)
Fixpoint dict_wf (d : message) : bool :=
  match d with
  | [] => true
  | (k, _) :: rest =>
      negb (existsb (String.eqb k) (map fst rest)) && dict_wf rest
  end.

Fixpoint dict_get (key : string) (d : message) : option pyval :=
  match d with
  | [] => None
  | (k, v) :: rest => if String.eqb k key then Some v else dict_get key rest
  end.

(** [d[key]] on a dict. *)
Definition getitem (d : message) (key : string) : result pyval :=
  match dict_get key d with
  | Some v => Ok v
  | None => Raise (KeyError key)
  end.

(** [v[key]] on an arbitrary value with a string subscript, as in
    [data['input_tokens']]: only a dict can be indexed that way. *)
Definition subscript (v : pyval) (key : string) : result pyval :=
  match v with
  | PDict d => getitem d key
  | PList _ =>
      Raise (TypeError "list indices must be integers or slices, not str")
  | PStr _ => Raise (TypeError "string indices must be integers, not 'str'")
  | _ => Raise (TypeError "object is not subscriptable")
  end.

(** [v == s] for a string literal [s]. *)
Definition eq_str (v : pyval) (s : string) : bool :=
  match v with
  | PStr t => String.eqb t s
  | _ => false
  end.

(** [v in [s1, s2, ...]] for a list of string literals. *)
Definition in_strs (v : pyval) (l : list string) : bool :=
  existsb (eq_str v) l.

(** [sep.join(parts)]: every part has to be a [str]. *)
Fixpoint str_parts (parts : list pyval) : result (list string) :=
  match parts with
  | [] => Ok []
  | PStr s :: rest => l <- str_parts rest ;; Ok (s :: l)
  | _ :: _ => Raise (TypeError "sequence item: expected str instance")
  end.

Definition str_join (sep : string) (parts : list pyval) : result string :=
  l <- str_parts parts ;; Ok (String.concat sep l).

Definition len {A} (l : list A) : Z := Z.of_nat (length l).

(** The string literal with the single character LF. *)
Definition newline : string := String (ascii_of_nat 10) "".

(** ** The world: logger and network *)

Record log_record : Type := mk_log_record {
  levelname : string;
  log_msg : string;
  exc_info : option exn
}.

(** The JSON body of the counting request. *)
Record count_payload : Type := mk_count_payload {
  payload_model : string;
  payload_system : string;
  payload_messages : list message
}.

Record request : Type := mk_request {
  url : string;
  headers : list (string * string);
  json : count_payload
}.

(** What the code reads of an [aiohttp] response: the status, and the two
    ways of reading the body, each of which may raise. *)
Record response : Type := mk_response {
  status : Z;
  response_json : result pyval;
  response_text : result string
}.

Record world : Type := mk_world {
  log : list log_record;
  requests : list request
}.

(** A coroutine of the module: it runs in a world, returns or raises, and
    leaves a world. *)
Definition M (A : Type) : Type := world -> result A * world.

Definition ret {A} (a : A) : M A := fun w => (Ok a, w).

Definition raise {A} (e : exn) : M A := fun w => (Raise e, w).

Definition bind {A B} (m : M A) (k : A -> M B) : M B :=
  fun w =>
    match m w with
    | (Ok a, w') => k a w'
    | (Raise e, w') => (Raise e, w')
    end.

Notation "x <~ m ;; k" := (bind m (fun x => k))
  (at level 61, m at next level, right associativity).

(** A computation without effects, such as the body handed to
    [asyncio.to_thread]: its result or its exception comes back unchanged. *)
Definition lift {A} (r : result A) : M A := fun w => (r, w).

(** [try: body / except Exception as e: handler e] around a coroutine. *)
Definition try_except {A} (body : M A) (handler : exn -> M A) : M A :=
  fun w =>
    match body w with
    | (Ok a, w') => (Ok a, w')
    | (Raise e, w') => handler e w'
    end.

(** [logger.error(msg, exc_info=True)]; [handling] is the exception being
    handled at the call, if any. *)
Definition logger_error (msg : string) (handling : option exn) : M unit :=
  fun w =>
    (Ok tt,
     mk_world (log w ++ [mk_log_record "ERROR" msg handling]) (requests w)).

(** ** The function *)

Section TokenCounter.

(** [tiktoken]'s [ENCODING_GPT4O.encode(value)]. *)
Variable ENCODING_GPT4O_encode : pyval -> result (list Z).

(** [TOKENIZER_WIZARDLM.apply_chat_template(messages, tokenize=...)]. *)
Variable TOKENIZER_WIZARDLM_apply_chat_template :
  list message -> bool -> result pyval.

(** [TOKENIZER_WIZARDLM.encode(text, add_special_tokens=...)]. *)
Variable TOKENIZER_WIZARDLM_encode : pyval -> bool -> result (list Z).

(** [ANTHROPIC_API_KEY], read from the configuration file. *)
Variable ANTHROPIC_API_KEY : string.

(** The endpoint behind [session.post]: for a request, either the call
    raises or a response comes back. *)
Variable endpoint : request -> result response.

(** *** Branch 'openai/gpt-4o' *)

(** [for key, value in message.items(): ...] *)
Fixpoint items_loop (items : list (string * pyval)) (num_tokens : Z)
  : result Z :=
  match items with
  | [] => Ok num_tokens
  | (key, value) :: rest =>
      if String.eqb key "content" then
        toks <- ENCODING_GPT4O_encode value ;;
        items_loop rest (num_tokens + len toks)
      else if String.eqb key "name" then
        toks <- ENCODING_GPT4O_encode value ;;
        items_loop rest (num_tokens + len toks)
      else items_loop rest num_tokens
  end.

(** [for message in messages: num_tokens += 3; ...] *)
Fixpoint gpt4o_loop (messages : list message) (num_tokens : Z) : result Z :=
  match messages with
  | [] => Ok num_tokens
  | message :: rest =>
      n <- items_loop message (num_tokens + 3) ;;
      gpt4o_loop rest n
  end.

Definition _gpt4o_count (messages : list message) : result Z :=
  num_tokens <- gpt4o_loop messages 0 ;;
  Ok (num_tokens + 3).

(** *** Branch 'anthropic/claude-3.7-sonnet' *)

(** [for msg in messages: ...] filling [system_parts], [chat_messages]. *)
Fixpoint partition_loop (messages : list message)
         (system_parts : list pyval) (chat_messages : list message)
  : result (list pyval * list message) :=
  match messages with
  | [] => Ok (system_parts, chat_messages)
  | msg :: rest =>
      role <- getitem msg "role" ;;
      if eq_str role "system" then
        content <- getitem msg "content" ;;
        partition_loop rest (system_parts ++ [content]) chat_messages
      else
        role <- getitem msg "role" ;;
        if in_strs role ["user"; "assistant"] then
          role <- getitem msg "role" ;;
          content <- getitem msg "content" ;;
          partition_loop rest system_parts
            (chat_messages ++ [[("role", role); ("content", content)]])
        else partition_loop rest system_parts chat_messages
  end.

Definition count_tokens_request (system : string)
           (chat_messages : list message) : request :=
  mk_request
    "https://api.anthropic.com/v1/messages/count_tokens"
    [("x-api-key", ANTHROPIC_API_KEY);
     ("anthropic-version", "2023-06-01");
     ("Content-Type", "application/json")]
    (mk_count_payload "claude-3-7-sonnet-20250219" system chat_messages).

(** [await session.post(...)]: the request goes out, the endpoint decides
    what comes back. *)
Definition session_post (req : request) : M response :=
  fun w => (endpoint req, mk_world (log w) (requests w ++ [req])).

(** The body of the branch.  The partition runs before the [try]; the
    payload is built, the request sent and the response read inside it.
    [async with aiohttp.ClientSession()] only opens and closes the session
    around the [try]. *)
Definition claude_count (messages : list message) : M pyval :=
  parts <~ lift (partition_loop messages [] []) ;;
  let '(system_parts, chat_messages) := parts in
  try_except
    (system <~ lift (str_join newline system_parts) ;;
     response <~ session_post (count_tokens_request system chat_messages) ;;
     if status response =? 200 then
       data <~ lift (response_json response) ;;
       lift (subscript data "input_tokens")
     else
       error <~ lift (response_text response) ;;
       _ <~ logger_error "Anthropic token count failed:" None ;;
       ret (PInt 0))
    (fun e =>
       _ <~ logger_error "Anthropic API error:" (Some e) ;;
       ret (PInt 0)).

(** *** Branch 'microsoft/wizardlm-2-8x22b' *)

(** [for msg in messages: total += len(encode(msg['content'], ...))] *)
Fixpoint fallback_loop (messages : list message) (total : Z) : result Z :=
  match messages with
  | [] => Ok total
  | msg :: rest =>
      content <- getitem msg "content" ;;
      toks <- TOKENIZER_WIZARDLM_encode content false ;;
      fallback_loop rest (total + len toks)
  end.

Definition _wizardlm_count (messages : list message) : result Z :=
  rcatch
    (formatted_chat <- TOKENIZER_WIZARDLM_apply_chat_template messages false ;;
     tokens <- TOKENIZER_WIZARDLM_encode formatted_chat false ;;
     Ok (len tokens))
    (fun e => fallback_loop messages 0).

(** *** The dispatcher *)

Definition num_tokens_from_messages (messages : list message)
           (model : string) : M pyval :=
  if String.eqb model "openai/gpt-4o" then
    lift (n <- _gpt4o_count messages ;; Ok (PInt n))
  else if String.eqb model "anthropic/claude-3.7-sonnet" then
    claude_count messages
  else if String.eqb model "microsoft/wizardlm-2-8x22b" then
    lift (n <- _wizardlm_count messages ;; Ok (PInt n))
  else
    raise (ValueError ("Unsupported model: " ++ model)).

(** ** The specification's reading of the three strategies *)

(** Token length of a value under the BPE encoding (0 where the encoder
    gives no token list). *)
Definition token_length (v : pyval) : Z :=
  match ENCODING_GPT4O_encode v with
  | Ok toks => len toks
  | Raise _ => 0
  end.

(** BPE token length of the [content] field. *)
Definition content_tokens (m : message) : Z :=
  match dict_get "content" m with
  | Some v => token_length v
  | None => 0
  end.

(** BPE token length of the [name] field when that field is present. *)
Definition name_tokens (m : message) : Z :=
  match dict_get "name" m with
  | Some v => token_length v
  | None => 0
  end.

(** Per-message overhead of 3, plus content, plus name if present. *)
Definition spec_message_tokens (m : message) : Z :=
  3 + content_tokens m + name_tokens m.

Definition sumZ (l : list Z) : Z := fold_right Z.add 0 l.

(** All messages, then the 3-token assistant priming. *)
Definition spec_gpt4o_total (messages : list message) : Z :=
  sumZ (map spec_message_tokens messages) + 3.

(** The keys whose values are counted. *)
Definition counted_key (key : string) : bool :=
  String.eqb key "content" || String.eqb key "name".

(** The encoder accepts every [content] and [name] value of the
    messages. *)
Definition encodable_fields (messages : list message) : bool :=
  forallb
    (forallb (fun kv : string * pyval =>
                if counted_key (fst kv)
                then is_ok (ENCODING_GPT4O_encode (snd kv))
                else true))
    messages.

(** The role of a message is the string [r]. *)
Definition has_role (r : string) (m : message) : bool :=
  match dict_get "role" m with
  | Some v => eq_str v r
  | None => false
  end.

Definition is_chat (m : message) : bool :=
  has_role "user" m || has_role "assistant" m.

Definition content_of (m : message) : pyval :=
  match dict_get "content" m with Some v => v | None => PNone end.

Definition role_of (m : message) : pyval :=
  match dict_get "role" m with Some v => v | None => PNone end.

Definition text_of (v : pyval) : string :=
  match v with PStr s => s | _ => "" end.

(** The content of every system-role message, in input order, joined with
    newlines. *)
Definition spec_system_string (messages : list message) : string :=
  String.concat newline
    (map (fun m => text_of (content_of m))
         (filter (has_role "system") messages)).

(** The system string a reader of the specification expects in the
    payload: the contents of the system-role messages, in input order, with
    one line feed (character 10) between two of them. *)
Definition spec_payload_system (messages : list message) : string :=
  String.concat (String "010" EmptyString)
    (map (fun m => text_of (content_of m))
         (filter (has_role "system") messages)).

(** The role/content pairs of the user- and assistant-role messages, in
    input order. *)
Definition spec_chat_messages (messages : list message) : list message :=
  map (fun m => [("role", role_of m); ("content", content_of m)])
      (filter is_chat messages).

Definition spec_request (messages : list message) : request :=
  count_tokens_request (spec_system_string messages)
                       (spec_chat_messages messages).

(** The messages fit the data model as far as the remote branch reads
    them: every message has a role; a system message has a text content;
    a user or assistant message has a content. *)
Definition remote_wf_message (m : message) : bool :=
  match dict_get "role" m with
  | None => false
  | Some r =>
      if eq_str r "system" then
        match dict_get "content" m with
        | Some (PStr _) => true
        | _ => false
        end
      else if in_strs r ["user"; "assistant"] then
        match dict_get "content" m with
        | Some _ => true
        | None => false
        end
      else true
  end.

Definition remote_wf (messages : list message) : bool :=
  forallb remote_wf_message messages.

(** The ways the counting request can fail: the call itself raises, the
    status is not 200, the body does not parse, or the parsed body has no
    [input_tokens] to read. *)
Inductive request_fails (req : request) : Prop :=
| fails_network (e : exn) :
    endpoint req = Raise e -> request_fails req
| fails_status (r : response) :
    endpoint req = Ok r -> status r <> 200 -> request_fails req
| fails_body (r : response) (e : exn) :
    endpoint req = Ok r -> status r = 200 ->
    response_json r = Raise e -> request_fails req
| fails_field (r : response) (data : pyval) (e : exn) :
    endpoint req = Ok r -> status r = 200 ->
    response_json r = Ok data ->
    subscript data "input_tokens" = Raise e -> request_fails req.

(** Rendering the chat template, or encoding what it rendered, raises. *)
Definition rendering_fails (messages : list message) : bool :=
  negb (is_ok (formatted_chat <-
                 TOKENIZER_WIZARDLM_apply_chat_template messages false ;;
               TOKENIZER_WIZARDLM_encode formatted_chat false)).

(** Token length of the raw content, encoded without special tokens. *)
Definition raw_content_tokens (m : message) : Z :=
  match dict_get "content" m with
  | Some v =>
      match TOKENIZER_WIZARDLM_encode v false with
      | Ok toks => len toks
      | Raise _ => 0
      end
  | None => 0
  end.

Definition spec_fallback_total (messages : list message) : Z :=
  sumZ (map raw_content_tokens messages).

(** Every message has a content and the tokenizer encodes it. *)
Definition fallback_encodable (messages : list message) : bool :=
  forallb (fun m => match dict_get "content" m with
                    | Some v => is_ok (TOKENIZER_WIZARDLM_encode v false)
                    | None => false
                    end)
          messages.

End TokenCounter.

(** The three recognized model identifiers. *)
Definition recognized (model : string) : bool :=
  String.eqb model "openai/gpt-4o"
  || String.eqb model "anthropic/claude-3.7-sonnet"
  || String.eqb model "microsoft/wizardlm-2-8x22b".

(** A token count in the sense of the data model: a non-negative integer. *)
Definition is_token_count (v : pyval) : bool :=
  match v with
  | PInt z => 0 <=? z
  | _ => false
  end.

(** ** Stand-ins for the collaborators

    Small executable tokenizers and endpoints, used to run the function on
    concrete conversations. *)

Definition byte_tokens (s : string) : list Z :=
  map (fun c => Z.of_nat (nat_of_ascii c)) (list_ascii_of_string s).

Definition in_vocabulary (s : string) : bool :=
  forallb (fun c => Nat.ltb (nat_of_ascii c) 128) (list_ascii_of_string s).

(** One token per byte. *)
Definition mock_gpt4o_encode (v : pyval) : result (list Z) :=
  match v with
  | PStr s => Ok (byte_tokens s)
  | _ => Raise (TypeError "expected string")
  end.

(** [needle in s]. *)
Fixpoint mentions (needle s : string) : bool :=
  match s with
  | EmptyString => prefix needle EmptyString
  | String _ rest => prefix needle s || mentions needle rest
  end.

(** One token per byte, for text that spells no special token: like an
    encoder called with its special tokens disallowed, it raises ValueError
    on a text that holds one. *)
Definition mock_strict_encode (v : pyval) : result (list Z) :=
  match v with
  | PStr s =>
      if mentions "<|endoftext|>" s
      then Raise (ValueError "disallowed special token")
      else Ok (byte_tokens s)
  | _ => Raise (TypeError "expected string")
  end.

(** One token per byte, over a 7-bit vocabulary; a leading token 1 when
    special tokens are requested. *)
Definition mock_wizardlm_encode (v : pyval) (add_special_tokens : bool)
  : result (list Z) :=
  match v with
  | PStr s =>
      if in_vocabulary s
      then Ok ((if add_special_tokens then [1] else []) ++ byte_tokens s)%list
      else Raise (ValueError "byte outside the vocabulary")
  | _ => Raise (TypeError "expected string")
  end.

(** Renders each message as a line [role: content]. *)
Fixpoint mock_render (messages : list message) : result string :=
  match messages with
  | [] => Ok ""
  | m :: rest =>
      role <- getitem m "role" ;;
      content <- getitem m "content" ;;
      match role, content with
      | PStr r, PStr c =>
          tail <- mock_render rest ;;
          Ok (r ++ ": " ++ c ++ newline ++ tail)
      | _, _ => Raise (TypeError "can only concatenate str")
      end
  end.

Definition mock_apply_chat_template (messages : list message)
           (tokenize : bool) : result pyval :=
  s <- mock_render messages ;;
  if tokenize
  then toks <- mock_wizardlm_encode (PStr s) false ;; Ok (PList (map PInt toks))
  else Ok (PStr s).

(** A template that cannot be rendered. *)
Definition mock_broken_template (messages : list message) (tokenize : bool)
  : result pyval :=
  Raise (ValueError "malformed template").

(** An endpoint that answers every request with status [code] and a JSON body
    [{"input_tokens": reported}]. *)
Definition mock_endpoint (code : Z) (reported : pyval) (req : request)
  : result response :=
  Ok (mk_response code (Ok (PDict [("input_tokens", reported)])) (Ok "")).

(** An endpoint that cannot be reached. *)
Definition mock_unreachable (req : request) : result response :=
  Raise (ClientError "cannot connect to host").

Definition empty_world : world := mk_world [] [].

Definition user_says (text : string) : message :=
  [("role", PStr "user"); ("content", PStr text)].

Definition system_says (text : string) : message :=
  [("role", PStr "system"); ("content", PStr text)].

Definition assistant_says (text : string) : message :=
  [("role", PStr "assistant"); ("content", PStr text)].

(** The function with the stand-ins plugged in. *)
Definition mock_count (endpoint : request -> result response)
  : list message -> string -> M pyval :=
  num_tokens_from_messages mock_gpt4o_encode mock_apply_chat_template
    mock_wizardlm_encode "sk-test" endpoint.

Definition mock_count_broken_template
  : list message -> string -> M pyval :=
  num_tokens_from_messages mock_gpt4o_encode mock_broken_template
    mock_wizardlm_encode "sk-test" mock_unreachable.

(** Example conversations. *)
Definition named_chat : list message :=
  [system_says "Be brief.";
   [("role", PStr "user"); ("content", PStr "hi"); ("name", PStr "bob")]].

Definition short_chat : list message :=
  [user_says "hello"; assistant_says "hi"].

Definition briefed_chat : list message :=
  [system_says "Be brief."; user_says "hi"].

Definition bilingual_chat : list message :=
  [system_says "Be brief."; user_says "hi"; assistant_says "salut";
   system_says "Reply in French."].

Definition tool_message : message :=
  [("role", PStr "tool"); ("content", PStr "42 rows")].

(** A text with one byte, 233, outside the 7-bit vocabulary. *)
Definition accented_chat : list message :=
  [user_says (String (ascii_of_nat 233) "")].

(** A user who spells a special token. *)
Definition special_token_chat : list message :=
  [user_says "Say <|endoftext|> twice."].

Definition reply_42 : response :=
  mk_response 200 (Ok (PDict [("input_tokens", PInt 42)])) (Ok "").

Definition reply_500 : response :=
  mk_response 500 (Ok (PDict [("input_tokens", PInt 42)])) (Ok "").

(** ** Further readings of the dispatcher *)

(** The entries of a message that the local BPE strategy looks at. *)
Definition counted_items (m : message) : message :=
  filter (fun kv : string * pyval => counted_key (fst kv)) m.

(** The loop of the remote branch gets through the message: it has a role,
    and a content too when the role is one the loop keeps. *)
Definition partitionable_message (m : message) : bool :=
  match dict_get "role" m with
  | None => false
  | Some r =>
      if eq_str r "system" || in_strs r ["user"; "assistant"] then
        match dict_get "content" m with
        | Some _ => true
        | None => false
        end
      else true
  end.

Definition partitionable (messages : list message) : bool :=
  forallb partitionable_message messages.

(** A conversation whose system message has no text. *)
Definition untexted_chat : list message :=
  [[("role", PStr "system"); ("content", PNone)]; user_says "hi"].

(** A conversation with a message that has no role. *)
Definition roleless_chat : list message :=
  [user_says "hi"; [("content", PStr "who am I?")]].

(** ** The other functions of [utils.py] *)

(** *** Strings and paths *)

(** [c in s] for a character [c]. *)
Fixpoint has_char (c : ascii) (s : string) : bool :=
  match s with
  | EmptyString => false
  | String a rest => Ascii.eqb a c || has_char c rest
  end.

(** [s.startswith(c)] for a one-character [c]. *)
Definition startswith_char (s : string) (c : ascii) : bool :=
  match s with
  | EmptyString => false
  | String a _ => Ascii.eqb a c
  end.

(** [s.endswith(c)] for a one-character [c]. *)
Fixpoint endswith_char (s : string) (c : ascii) : bool :=
  match s with
  | EmptyString => false
  | String a EmptyString => Ascii.eqb a c
  | String _ rest => endswith_char rest c
  end.

(** Every character of [s] satisfies [p]. *)
Fixpoint all_chars (p : ascii -> bool) (s : string) : bool :=
  match s with
  | EmptyString => true
  | String a rest => p a && all_chars p rest
  end.

(** The characters of a decimal numeral: the digits and the minus sign. *)
Definition numeral_char (a : ascii) : bool :=
  (Nat.leb 48 (nat_of_ascii a) && Nat.leb (nat_of_ascii a) 57)
  || Ascii.eqb a "-".

(** A path component that [os.path.join] appends as it is: not empty and
    without separator. *)
Definition plain_component (b : string) : bool :=
  negb (String.eqb b "") && negb (has_char "/" b).

(** A path that a plain component is appended to after a separator: not
    empty and not ending with one. *)
Definition open_path (path : string) : Prop :=
  path <> "" /\ endswith_char path "/" = false.

(** [str(n)] for an int: its decimal numeral. *)
Definition str_int (n : Z) : string :=
  DecimalString.NilZero.string_of_int (Z.to_int n).

(** One round of the loop of [os.path.join] (POSIX flavour, separator
    ["/"]): an absolute component replaces what was joined so far, any
    other is appended, after a separator unless the path is empty or ends
    with one. *)
Definition join_step (path b : string) : string :=
  if startswith_char b "/" then b
  else if String.eqb path "" || endswith_char path "/" then path ++ b
  else path ++ "/" ++ b.

(** [os.path.join(a, *p)]. *)
Definition os_path_join (a : string) (p : list string) : string :=
  fold_left join_step p a.

Section Paths.

(** [ROOT_DIR] of [config.py], the directory above the package. *)
Variable ROOT_DIR : string.

Definition DATA_DIR : string := os_path_join ROOT_DIR ["data"].

Definition get_guild_dir (guild_id : Z) : string :=
  os_path_join DATA_DIR [str_int guild_id].

Definition get_channel_path (guild_id channel_id : Z) : string :=
  os_path_join (get_guild_dir guild_id) [str_int channel_id ++ ".json"].

Definition get_game_path (guild_id user_id : Z) : string :=
  os_path_join DATA_DIR
    [str_int guild_id; "games"; "monkeyspaw"; str_int user_id ++ ".json"].

Definition get_player_cards_dir (user_id : Z) : string :=
  os_path_join DATA_DIR ["player_cards"; str_int user_id].

Definition get_player_card_path (user_id : Z) (card_id : string) : string :=
  os_path_join (get_player_cards_dir user_id) [card_id ++ ".json"].

Definition get_text_game_path (guild_id channel_id : Z) : string :=
  os_path_join DATA_DIR
    [str_int guild_id; "games"; "textadventure";
     str_int channel_id ++ ".json"].

(** *** The permission check *)

(** [os.path.exists(path)]. *)
Variable path_exists : string -> bool.

(** [with open(path, 'r') as f: json.load(f)]. *)
Variable load_json : string -> result pyval.

(** [role_file] of [get_ai_manager_role]. *)
Definition ai_manager_role_file (guild_id : Z) : string :=
  os_path_join (get_guild_dir guild_id) ["ai_manager_role.json"].

(** The bare [except:] turns every failure into [None]: the file that
    cannot be opened or parsed, and the loaded value that has no [get]
    because it is not a dict.  [d.get('role_id')] is [None] for a dict
    without the key. *)
Definition get_ai_manager_role (guild_id : Z) : pyval :=
  let role_file := ai_manager_role_file guild_id in
  if negb (path_exists role_file) then PNone
  else
    match load_json role_file with
    | Ok (PDict data) =>
        match dict_get "role_id" data with
        | Some v => v
        | None => PNone
        end
    | Ok _ => PNone
    | Raise _ => PNone
    end.

(** The ways a guild has no role on file: there is no file, it cannot be
    opened or parsed, it does not hold a JSON object, or the object has no
    [role_id]. *)
Inductive no_role_on_file (guild_id : Z) : Prop :=
| role_file_missing :
    path_exists (ai_manager_role_file guild_id) = false ->
    no_role_on_file guild_id
| role_file_unreadable (e : exn) :
    load_json (ai_manager_role_file guild_id) = Raise e ->
    no_role_on_file guild_id
| role_file_not_object (data : pyval) :
    load_json (ai_manager_role_file guild_id) = Ok data ->
    (forall d, data <> PDict d) ->
    no_role_on_file guild_id
| role_file_without_role (d : list (string * pyval)) :
    load_json (ai_manager_role_file guild_id) = Ok (PDict d) ->
    dict_get "role_id" d = None ->
    no_role_on_file guild_id.

End Paths.

(** The truth value of a Python value, as [if v] and [v and ...] take it. *)
Definition truthy (v : pyval) : bool :=
  match v with
  | PNone => false
  | PBool b => b
  | PInt z => negb (z =? 0)
  | PStr s => negb (String.eqb s "")
  | PList l => match l with [] => false | _ :: _ => true end
  | PDict d => match d with [] => false | _ :: _ => true end
  end.

(** [n == v] for an int [n]: equal to the same int, and to the bool that
    counts as that int. *)
Definition int_eq (n : Z) (v : pyval) : bool :=
  match v with
  | PInt z => n =? z
  | PBool b => n =? (if b then 1 else 0)
  | _ => false
  end.

(** What the check reads of [interaction.user]: the administrator
    permission and the ids of the member's roles. *)
Record member : Type := mk_member {
  administrator : bool;
  role_ids : list Z
}.

(** What the check reads of the interaction: the member and the id of the
    guild. *)
Record interaction : Type := mk_interaction {
  user : member;
  guild_id_of : Z
}.

(** The check returns a bool or raises [app_commands.CheckFailure]. *)
Inductive check_outcome : Type :=
| CheckReturns (b : bool)
| CheckFailure (msg : string).

Section PermissionCheck.

Variable ROOT_DIR : string.
Variable path_exists : string -> bool.
Variable load_json : string -> result pyval.

Definition is_admin_or_ai_manager (i : interaction) : check_outcome :=
  if administrator (user i) then CheckReturns true
  else
    let ai_manager_role :=
      get_ai_manager_role ROOT_DIR path_exists load_json (guild_id_of i) in
    if truthy ai_manager_role
       && existsb (fun role_id => int_eq role_id ai_manager_role)
                  (role_ids (user i))
    then CheckReturns true
    else CheckFailure "You do not have permission to run this command.".

End PermissionCheck.

(** *** The narrator prompt *)

(** [s.replace(old, new)] for a non-empty [old]: the occurrences of [old]
    are replaced from left to right, the search resuming after each one.
    [skip] counts the characters of a matched occurrence still to pass. *)
Fixpoint replace_from (old new : string) (skip : nat) (s : string)
  : string :=
  match s with
  | EmptyString => EmptyString
  | String c rest =>
      match skip with
      | S k => replace_from old new k rest
      | O =>
          if prefix old s
          then new ++ replace_from old new (String.length old - 1) rest
          else String c (replace_from old new 0 rest)
      end
  end.

Definition str_replace (s old new : string) : string :=
  replace_from old new 0 s.

(** The inner function [render]. *)
Definition render (desc name : string) : string :=
  str_replace (str_replace desc "{player}" name) "{Player}" name.

(** A player: a dict with text values. *)
Definition player : Type := list (string * string).

Fixpoint player_get (key : string) (p : player) : option string :=
  match p with
  | [] => None
  | (k, v) :: rest => if String.eqb k key then Some v else player_get key rest
  end.

(** [p[key]]. *)
Definition player_getitem (p : player) (key : string) : result string :=
  match player_get key p with
  | Some v => Ok v
  | None => Raise (KeyError key)
  end.

(** One line of the roster,
    [f"- {p['name']}: {render(p['description'], p['name'])}"]. *)
Definition roster_line (p : player) : result string :=
  name <- player_getitem p "name" ;;
  description <- player_getitem p "description" ;;
  name' <- player_getitem p "name" ;;
  Ok ("- " ++ name ++ ": " ++ render description name').

(** The lines, in the order of [players.values()]. *)
Fixpoint roster_lines (ps : list player) : result (list string) :=
  match ps with
  | [] => Ok []
  | p :: rest =>
      line <- roster_line p ;;
      lines <- roster_lines rest ;;
      Ok (line :: lines)
  end.

Definition prompt_header : string :=
  "You are an imaginative, immersive narrator for a co-operative multiplayer text adventure. Respond **only** as narrative prose, never mentioning game mechanics."
  ++ newline ++ newline ++ "**Active player roster:**" ++ newline.

Definition prompt_footer : string :=
  newline ++ newline
  ++ "After each user input, describe how the world reacts and ask what the players do next.".

(** [players] is a dict; its values are taken in insertion order. *)
Definition build_game_system_prompt {K : Type} (players : list (K * player))
  : result string :=
  lines <- roster_lines (map snd players) ;;
  Ok (prompt_header ++ String.concat newline lines ++ prompt_footer).

(** A description as a reader sees it: stretches of text and the two
    placeholders. *)
Inductive segment : Type :=
| Text (t : string)
| LowerPlayer
| UpperPlayer.

Definition segment_source (s : segment) : string :=
  match s with
  | Text t => t
  | LowerPlayer => "{player}"
  | UpperPlayer => "{Player}"
  end.

Definition segment_filled (name : string) (s : segment) : string :=
  match s with
  | Text t => t
  | LowerPlayer => name
  | UpperPlayer => name
  end.

(** The description as written, and with the name in place of every
    placeholder. *)
Definition written (segments : list segment) : string :=
  fold_right (fun s rest => segment_source s ++ rest) "" segments.

Definition filled (name : string) (segments : list segment) : string :=
  fold_right (fun s rest => segment_filled name s ++ rest) "" segments.

(** The description after the first of the two replacements: the
    lower-case placeholder filled, the upper-case one still written. *)
Definition segment_half_filled (name : string) (s : segment) : string :=
  match s with
  | Text t => t
  | LowerPlayer => name
  | UpperPlayer => "{Player}"
  end.

Definition half_filled (name : string) (segments : list segment) : string :=
  fold_right (fun s rest => segment_half_filled name s ++ rest) "" segments.

(** A player with a name and a description. *)
Definition complete_player (p : player) : bool :=
  match player_get "name" p, player_get "description" p with
  | Some _, Some _ => true
  | _, _ => false
  end.

(** The stretches of text hold no opening brace. *)
Definition brace_free_text (s : segment) : bool :=
  match s with
  | Text t => negb (has_char "{" t)
  | _ => true
  end.

(** What a reader knows of a player: the name, and the description in
    segments. *)
Definition player_sheet : Type := (string * list segment)%type.

(** The dict [p] holds the name and the written description of the sheet,
    and neither the name nor the text of the description holds an opening
    brace. *)
Definition player_of_sheet (p : player) (sheet : player_sheet) : Prop :=
  player_get "name" p = Some (fst sheet)
  /\ player_get "description" p = Some (written (snd sheet))
  /\ has_char "{" (fst sheet) = false
  /\ forallb brace_free_text (snd sheet) = true.

(** The line of the roster a reader expects for a sheet. *)
Definition roster_entry (sheet : player_sheet) : string :=
  "- " ++ fst sheet ++ ": " ++ filled (fst sheet) (snd sheet).

(** Examples for the other functions. *)

Definition manager_file_exists (path : string) : bool := true.

Definition no_file_exists (path : string) : bool := false.

(** A role file that stores the role id 7 as an int. *)
Definition load_role_7 (path : string) : result pyval :=
  Ok (PDict [("role_id", PInt 7)]).

(** A role file that stores the role id 7 as a string. *)
Definition load_role_text (path : string) : result pyval :=
  Ok (PDict [("role_id", PStr "7")]).

(** A member with the roles 3 and 7 who is no administrator. *)
Definition manager_interaction : interaction :=
  mk_interaction (mk_member false [3; 7]) 1.

Definition ann_description : list segment :=
  [UpperPlayer; Text " follows "; LowerPlayer; Text "'s map."].

Definition ann : player :=
  [("name", "Ann"); ("description", "{Player} follows {player}'s map.")].

Definition bo : player :=
  [("description", "A quiet smith."); ("name", "Bo")].

(** ** Properties *)

(** General facts about results, dicts and sums. *)

Lemma len_nonneg {A} (l : list A) : 0 <= len l.
Proof. unfold len. lia. Qed.

Lemma len_cons {A} (a : A) (l : list A) : len (a :: l) = len l + 1.
Proof. unfold len. simpl length. lia. Qed.

Lemma dict_get_absent (key : string) (d : message) :
  existsb (String.eqb key) (map fst d) = false -> dict_get key d = None.
Proof.
  induction d as [|[k v] rest IH]; simpl; intros H.
  - reflexivity.
  - apply orb_false_elim in H as [Hk Hrest].
    rewrite String.eqb_sym, Hk. auto.
Qed.

Section Properties.

Variable ENCODING_GPT4O_encode : pyval -> result (list Z).
Variable TOKENIZER_WIZARDLM_apply_chat_template :
  list message -> bool -> result pyval.
Variable TOKENIZER_WIZARDLM_encode : pyval -> bool -> result (list Z).
Variable ANTHROPIC_API_KEY : string.
Variable endpoint : request -> result response.

Local Abbreviation count :=
  (num_tokens_from_messages ENCODING_GPT4O_encode
     TOKENIZER_WIZARDLM_apply_chat_template TOKENIZER_WIZARDLM_encode
     ANTHROPIC_API_KEY endpoint).
Local Abbreviation items_loop := (items_loop ENCODING_GPT4O_encode).
Local Abbreviation gpt4o_loop := (gpt4o_loop ENCODING_GPT4O_encode).
Local Abbreviation _gpt4o_count := (_gpt4o_count ENCODING_GPT4O_encode).
Local Abbreviation token_length := (token_length ENCODING_GPT4O_encode).
Local Abbreviation content_tokens := (content_tokens ENCODING_GPT4O_encode).
Local Abbreviation name_tokens := (name_tokens ENCODING_GPT4O_encode).
Local Abbreviation spec_message_tokens :=
  (spec_message_tokens ENCODING_GPT4O_encode).
Local Abbreviation spec_gpt4o_total := (spec_gpt4o_total ENCODING_GPT4O_encode).
Local Abbreviation encodable_fields := (encodable_fields ENCODING_GPT4O_encode).

(** *** The local BPE strategy *)

(** The inner loop only adds to the running total: started from [n] it
    does what it does from 0, shifted by [n]. *)
Lemma items_loop_shift (items : message) (n : Z) :
  items_loop items n = (k <- items_loop items 0 ;; Ok (n + k)).
Proof.
  revert n.
  induction items as [|[key value] rest IH]; intros n; simpl.
  - f_equal. lia.
  - destruct (String.eqb key "content");
      [|destruct (String.eqb key "name")].
    1,2: destruct (ENCODING_GPT4O_encode value) as [toks|e]; simpl;
      [|reflexivity];
      rewrite (IH (n + len toks)), (IH (len toks));
      destruct (items_loop rest 0); simpl; [f_equal; lia | reflexivity].
    apply IH.
Qed.

Lemma items_loop_lower (items : message) (n n' : Z) :
  items_loop items n = Ok n' -> n <= n'.
Proof.
  revert n.
  induction items as [|[key value] rest IH]; intros n; simpl.
  - intros [= <-]. lia.
  - destruct (String.eqb key "content");
      [|destruct (String.eqb key "name")].
    1,2: destruct (ENCODING_GPT4O_encode value) as [toks|e]; simpl;
      [|discriminate];
      intros H; apply IH in H; pose proof (len_nonneg toks); lia.
    apply IH.
Qed.

Lemma token_length_ok (v : pyval) (toks : list Z) :
  ENCODING_GPT4O_encode v = Ok toks -> token_length v = len toks.
Proof. unfold token_length. intros ->. reflexivity. Qed.

(** On a dict whose counted fields the encoder accepts, the inner loop
    adds the token length of [content] and of [name]. *)
Lemma items_loop_fields (m : message) (n : Z) :
  dict_wf m = true ->
  forallb (fun kv : string * pyval =>
             if counted_key (fst kv)
             then is_ok (ENCODING_GPT4O_encode (snd kv)) else true) m = true ->
  items_loop m n = Ok (n + content_tokens m + name_tokens m).
Proof.
  revert n.
  induction m as [|[key value] rest IH]; intros n Hwf Henc.
  - simpl. f_equal. unfold content_tokens, name_tokens. simpl. lia.
  - simpl in Hwf, Henc.
    apply andb_true_iff in Hwf as [Hfresh Hwf].
    apply andb_true_iff in Henc as [Hv Henc].
    apply negb_true_iff in Hfresh.
    specialize (fun n => IH n Hwf Henc).
    unfold content_tokens, name_tokens, counted_key in *. simpl.
    destruct (String.eqb key "content") eqn:Hc.
    + apply String.eqb_eq in Hc. subst key.
      simpl in Hv.
      destruct (ENCODING_GPT4O_encode value) as [toks|e] eqn:He;
        [|discriminate].
      simpl. rewrite IH, (token_length_ok _ _ He).
      rewrite (dict_get_absent "content" rest Hfresh). f_equal. lia.
    + destruct (String.eqb key "name") eqn:Hn.
      * apply String.eqb_eq in Hn. subst key.
        simpl in Hv.
        destruct (ENCODING_GPT4O_encode value) as [toks|e] eqn:He;
          [|discriminate].
        simpl. rewrite IH, (token_length_ok _ _ He).
        rewrite (dict_get_absent "name" rest Hfresh). f_equal. lia.
      * apply IH.
Qed.

Lemma gpt4o_loop_spec (messages : list message) (n : Z) :
  forallb dict_wf messages = true ->
  encodable_fields messages = true ->
  gpt4o_loop messages n =
  Ok (n + sumZ (map spec_message_tokens messages)).
Proof.
  revert n.
  induction messages as [|m rest IH]; intros n Hwf Henc; simpl.
  - f_equal. lia.
  - simpl in Hwf. unfold encodable_fields in Henc. simpl in Henc.
    apply andb_true_iff in Hwf as [Hm Hwf].
    apply andb_true_iff in Henc as [Hme Henc].
    rewrite (items_loop_fields m (n + 3) Hm Hme). simpl.
    rewrite (IH _ Hwf Henc). f_equal.
    unfold spec_message_tokens. lia.
Qed.


Lemma items_loop_total (m : message) (n : Z) :
  forallb (fun kv : string * pyval =>
             if counted_key (fst kv)
             then is_ok (ENCODING_GPT4O_encode (snd kv)) else true) m = true ->
  exists n', items_loop m n = Ok n'.
Proof.
  revert n.
  induction m as [|[key value] rest IH]; intros n Henc; simpl.
  - eauto.
  - simpl in Henc. apply andb_true_iff in Henc as [Hv Henc].
    unfold counted_key in Hv.
    destruct (String.eqb key "content");
      [|destruct (String.eqb key "name")]; simpl in Hv.
    1,2: destruct (ENCODING_GPT4O_encode value) as [toks|e];
      [simpl; auto | discriminate].
    auto.
Qed.

Lemma gpt4o_loop_total (messages : list message) (n : Z) :
  encodable_fields messages = true ->
  exists n', gpt4o_loop messages n = Ok n'.
Proof.
  revert n.
  induction messages as [|m rest IH]; intros n Henc; simpl.
  - eauto.
  - unfold encodable_fields in Henc. simpl in Henc.
    apply andb_true_iff in Henc as [Hm Henc].
    destruct (items_loop_total m (n + 3) Hm) as [k ->]. simpl.
    apply IH, Henc.
Qed.

(** Every message costs at least its overhead of 3. *)
Lemma gpt4o_loop_lower (messages : list message) (n n' : Z) :
  gpt4o_loop messages n = Ok n' -> n + 3 * len messages <= n'.
Proof.
  revert n.
  induction messages as [|m rest IH]; intros n.
  - simpl. intros [= <-]. lia.
  - intros H. simpl in H.
    destruct (items_loop m (n + 3)) as [k|e] eqn:Hm; simpl in H;
      [|discriminate].
    apply IH in H. apply items_loop_lower in Hm.
    rewrite len_cons. lia.
Qed.

(** C7.  With the local BPE strategy the count of a sequence of messages
    (whose content and name values the encoder accepts) is at least
    3 * (len(messages) + 1), and, the empty text having no tokens, the
    count of the single message {role: "user", content: ""} is exactly
    6. *)
Theorem gpt4o_count_overhead_bound
        (messages : list message) (w : world)
        (Hempty : ENCODING_GPT4O_encode (PStr "") = Ok [])
        (Henc : encodable_fields messages = true) :
  (exists n, count messages "openai/gpt-4o" w = (Ok (PInt n), w)
             /\ 3 * (len messages + 1) <= n)
  /\ count [[("role", PStr "user"); ("content", PStr "")]] "openai/gpt-4o" w
     = (Ok (PInt 6), w).
Proof.
  split.
  - destruct (gpt4o_loop_total messages 0 Henc) as [k Hk].
    exists (k + 3). split.
    + unfold num_tokens_from_messages, lift, _gpt4o_count. simpl.
      rewrite Hk. reflexivity.
    + apply gpt4o_loop_lower in Hk. lia.
  - unfold num_tokens_from_messages, lift, _gpt4o_count. simpl.
    rewrite Hempty. reflexivity.
Qed.

(** Two adjacent messages can be counted in either order. *)
Lemma gpt4o_loop_swap (x y : message) (rest : list message) (n : Z) :
  returned (gpt4o_loop (y :: x :: rest) n)
  = returned (gpt4o_loop (x :: y :: rest) n).
Proof.
  simpl.
  rewrite (items_loop_shift y (n + 3)), (items_loop_shift x (n + 3)).
  destruct (items_loop x 0) as [kx|ex] eqn:Hx;
    destruct (items_loop y 0) as [ky|ey] eqn:Hy; simpl.
  - rewrite (items_loop_shift x), (items_loop_shift y), Hx, Hy. simpl.
    replace (n + 3 + ky + 3 + kx) with (n + 3 + kx + 3 + ky) by lia.
    reflexivity.
  - rewrite (items_loop_shift y), Hy. reflexivity.
  - rewrite (items_loop_shift x), Hx. reflexivity.
  - reflexivity.
Qed.

Lemma gpt4o_loop_permutation (l l' : list message) :
  Permutation l l' ->
  forall n, returned (gpt4o_loop l n) = returned (gpt4o_loop l' n).
Proof.
  induction 1 as [|x l l' _ IH|x y l|l l' l'' _ IH1 _ IH2]; intros n.
  - reflexivity.
  - simpl. destruct (items_loop x (n + 3)); simpl; auto.
  - apply gpt4o_loop_swap.
  - rewrite IH1. apply IH2.
Qed.

(** C8.  With the local BPE strategy, a sequence of messages and any
    reordering of it yield the same count: what the call returns (a count,
    or nothing when an encoding raises) and the world it leaves are the
    same for both orders. *)
Theorem gpt4o_count_permutation_invariant
        (messages messages' : list message) (w : world) :
  Permutation messages messages' ->
  returned (fst (count messages "openai/gpt-4o" w))
  = returned (fst (count messages' "openai/gpt-4o" w))
  /\ snd (count messages "openai/gpt-4o" w)
     = snd (count messages' "openai/gpt-4o" w).
Proof.
  intros Hperm.
  unfold num_tokens_from_messages, lift, _gpt4o_count. simpl.
  split; [|reflexivity].
  pose proof (gpt4o_loop_permutation _ _ Hperm 0) as H.
  destruct (gpt4o_loop messages 0), (gpt4o_loop messages' 0);
    simpl in *; congruence.
Qed.

(** *** The remote counting strategy *)

Local Abbreviation claude_count :=
  (claude_count ANTHROPIC_API_KEY endpoint).
Local Abbreviation spec_request := (spec_request ANTHROPIC_API_KEY).
Local Abbreviation request_fails := (request_fails endpoint).

Lemma eq_str_true (v : pyval) (s : string) :
  eq_str v s = true <-> v = PStr s.
Proof.
  destruct v; simpl; split; try discriminate.
  - intros H. apply String.eqb_eq in H. congruence.
  - intros [= ->]. apply String.eqb_refl.
Qed.

Lemma eq_str_false (v : pyval) (s : string) :
  eq_str v s = false <-> v <> PStr s.
Proof.
  rewrite <- eq_str_true. destruct (eq_str v s); split; congruence.
Qed.

(** The loop over the messages appends to its two accumulators the
    contents of the system messages and the role/content pairs of the
    user and assistant messages. *)
Lemma partition_loop_spec (messages : list message)
      (system_parts : list pyval) (chat_messages : list message) :
  remote_wf messages = true ->
  partition_loop messages system_parts chat_messages
  = Ok ((system_parts
           ++ map content_of (filter (has_role "system") messages))%list,
        (chat_messages ++ spec_chat_messages messages)%list).
Proof.
  revert system_parts chat_messages.
  induction messages as [|m rest IH]; intros sys chat Hwf.
  - simpl. unfold spec_chat_messages. simpl. now rewrite !app_nil_r.
  - simpl in Hwf. apply andb_true_iff in Hwf as [Hm Hwf].
    unfold remote_wf_message in Hm.
    simpl.
    unfold spec_chat_messages, is_chat, has_role, content_of, role_of,
      getitem in *.
    simpl.
    destruct (dict_get "role" m) as [r|] eqn:Hr; [|discriminate]. simpl.
    destruct (eq_str r "system") eqn:Hsys.
    + apply eq_str_true in Hsys. subst r. simpl.
      destruct (dict_get "content" m) as [c|] eqn:Hc; [|discriminate].
      simpl. rewrite (IH _ _ Hwf), <- app_assoc. reflexivity.
    + unfold in_strs in *. simpl in *.
      destruct (eq_str r "user" || (eq_str r "assistant" || false)) eqn:Hchat.
      * destruct (dict_get "content" m) as [c|] eqn:Hc; [|discriminate].
        rewrite orb_false_r in Hchat. rewrite Hchat. simpl.
        rewrite (IH _ _ Hwf), <- app_assoc, Hr, Hc. reflexivity.
      * rewrite orb_false_r in Hchat. rewrite Hchat.
        apply (IH _ _ Hwf).
Qed.

Lemma str_parts_texts (messages : list message) :
  remote_wf messages = true ->
  str_parts (map content_of (filter (has_role "system") messages))
  = Ok (map (fun m => text_of (content_of m))
            (filter (has_role "system") messages)).
Proof.
  induction messages as [|m rest IH]; intros Hwf; [reflexivity|].
  simpl in Hwf. apply andb_true_iff in Hwf as [Hm Hwf].
  specialize (IH Hwf).
  unfold remote_wf_message in Hm. unfold has_role, content_of in *.
  simpl.
  destruct (dict_get "role" m) as [r|]; [|discriminate].
  destruct (eq_str r "system"); [|exact IH].
  destruct (dict_get "content" m) as [[]|] eqn:Hc; try discriminate.
  simpl. rewrite Hc. simpl. rewrite IH. reflexivity.
Qed.

Lemma str_join_system (messages : list message) :
  remote_wf messages = true ->
  str_join newline (map content_of (filter (has_role "system") messages))
  = Ok (spec_system_string messages).
Proof.
  intros Hwf. unfold str_join. rewrite (str_parts_texts _ Hwf).
  reflexivity.
Qed.

(** Conversely, the branch gets as far as sending a request only on such
    messages: if the partition goes through and the system parts can be
    joined, the messages are well formed in the sense of [remote_wf]. *)
Lemma partition_loop_extends (messages : list message)
      (system_parts sys : list pyval) (chat_messages chat : list message) :
  partition_loop messages system_parts chat_messages = Ok (sys, chat) ->
  exists more, sys = (system_parts ++ more)%list.
Proof.
  revert system_parts chat_messages.
  induction messages as [|m rest IH]; intros sys0 chat0; simpl.
  - intros [= <- _]. exists []. now rewrite app_nil_r.
  - destruct (getitem m "role") as [r|e]; simpl; [|discriminate].
    destruct (eq_str r "system").
    + destruct (getitem m "content") as [c|e]; simpl; [|discriminate].
      intros H. apply IH in H as [more ->].
      exists (c :: more). now rewrite <- app_assoc.
    + destruct (eq_str r "user" || (eq_str r "assistant" || false));
        [|apply IH].
      destruct (getitem m "content") as [c|e]; simpl; [|discriminate].
      apply IH.
Qed.

Lemma str_parts_app (a b : list pyval) :
  is_ok (str_parts (a ++ b)) = is_ok (str_parts a) && is_ok (str_parts b).
Proof.
  induction a as [|v a IH]; simpl; [reflexivity|].
  destruct v; try reflexivity.
  destruct (str_parts (a ++ b)), (str_parts a); simpl in *;
    try discriminate; auto.
Qed.

Lemma remote_wf_of_partition (messages : list message)
      (system_parts sys : list pyval) (chat_messages chat : list message) :
  partition_loop messages system_parts chat_messages = Ok (sys, chat) ->
  is_ok (str_parts sys) = true ->
  remote_wf messages = true.
Proof.
  revert system_parts chat_messages.
  induction messages as [|m rest IH]; intros sys0 chat0; [reflexivity|].
  simpl. unfold remote_wf_message, getitem.
  destruct (dict_get "role" m) as [r|]; simpl; [|discriminate].
  destruct (eq_str r "system").
  - destruct (dict_get "content" m) as [c|]; simpl; [|discriminate].
    intros Hloop Hjoin. rewrite (IH _ _ Hloop Hjoin), andb_true_r.
    destruct (partition_loop_extends _ _ _ _ _ Hloop) as [more ->].
    rewrite !str_parts_app in Hjoin.
    apply andb_true_iff in Hjoin as [Hjoin _].
    apply andb_true_iff in Hjoin as [_ Hc].
    destruct c; try discriminate. reflexivity.
  - destruct (eq_str r "user" || (eq_str r "assistant" || false)).
    + destruct (dict_get "content" m) as [c|]; simpl; [|discriminate].
      apply IH.
    + apply IH.
Qed.

(** Brings a run of the remote branch on well-formed messages to the
    point where the endpoint has the word. *)
Ltac remote_setup Hwf :=
  unfold num_tokens_from_messages, claude_count; simpl;
  unfold bind at 1, lift at 1;
  rewrite (partition_loop_spec _ [] [] Hwf); simpl;
  unfold try_except, bind, lift, session_post, logger_error, ret;
  rewrite (str_join_system _ Hwf);
  unfold spec_request in *.

(** C2.  On well-formed messages, when the endpoint answers the counting
    request with status 200 and a body whose [input_tokens] is [v], the
    remote strategy returns [v] as it is (42 for a reported 42), writes
    nothing to the log and has issued that one request. *)
Theorem claude_count_returns_reported
        (messages : list message) (w : world)
        (r : response) (data v : pyval) :
  remote_wf messages = true ->
  endpoint (spec_request messages) = Ok r ->
  status r = 200 ->
  response_json r = Ok data ->
  subscript data "input_tokens" = Ok v ->
  count messages "anthropic/claude-3.7-sonnet" w
  = (Ok v, mk_world (log w) (requests w ++ [spec_request messages])%list).
Proof.
  intros Hwf Hr Hstatus Hjson Hv.
  remote_setup Hwf.
  rewrite Hr, Hstatus, Hjson, Hv. reflexivity.
Qed.

(** C3.  On well-formed messages, when the counting request fails (the
    call raises, the status is not 200, the body does not parse or has no
    [input_tokens]), the remote strategy returns 0, nothing is raised, and
    exactly one record, of level ERROR, has been added to the log. *)
Theorem claude_count_fails_open
        (messages : list message) (w : world) :
  remote_wf messages = true ->
  request_fails (spec_request messages) ->
  exists record : log_record,
    levelname record = "ERROR"
    /\ count messages "anthropic/claude-3.7-sonnet" w
       = (Ok (PInt 0),
          mk_world (log w ++ [record])%list
                   (requests w ++ [spec_request messages])%list).
Proof.
  intros Hwf Hfail.
  remote_setup Hwf.
  destruct Hfail as [e He|r Hr Hstatus|r e Hr Hstatus Hjson
                    |r data e Hr Hstatus Hjson Hfield].
  - rewrite He. eexists. split; [|reflexivity]. reflexivity.
  - rewrite Hr. apply Z.eqb_neq in Hstatus. rewrite Hstatus.
    destruct (response_text r);
      (eexists; split; [|reflexivity]; reflexivity).
  - rewrite Hr, Hstatus, Hjson.
    eexists. split; [|reflexivity]. reflexivity.
  - rewrite Hr, Hstatus, Hjson, Hfield.
    eexists. split; [|reflexivity]. reflexivity.
Qed.

(** C6.  On well-formed messages the remote strategy issues exactly one
    request; the [system] field of its payload is the contents of the
    system-role messages, in input order, joined with line feeds, and its
    [messages] field is the list of the role/content pairs of the user- and
    assistant-role messages in their original relative order. *)
Theorem claude_count_request_payload
        (messages : list message) (w : world) :
  remote_wf messages = true ->
  exists req : request,
    requests (snd (count messages "anthropic/claude-3.7-sonnet" w))
    = (requests w ++ [req])%list
    /\ payload_system (json req) = spec_payload_system messages
    /\ payload_messages (json req) = spec_chat_messages messages.
Proof.
  intros Hwf.
  remote_setup Hwf.
  assert (Hpayload :
            payload_system
              (json (count_tokens_request ANTHROPIC_API_KEY
                       (spec_system_string messages)
                       (spec_chat_messages messages)))
            = spec_payload_system messages
            /\ payload_messages
                 (json (count_tokens_request ANTHROPIC_API_KEY
                          (spec_system_string messages)
                          (spec_chat_messages messages)))
               = spec_chat_messages messages).
  { split; reflexivity. }
  destruct (endpoint _) as [r|e];
    [|eexists; split; [reflexivity|exact Hpayload]].
  destruct (status r =? 200).
  - destruct (response_json r) as [data|e];
      [|eexists; split; [reflexivity|exact Hpayload]].
    destruct (subscript data "input_tokens");
      (eexists; split; [reflexivity|exact Hpayload]).
  - destruct (response_text r);
      (eexists; split; [reflexivity|exact Hpayload]).
Qed.

(** A message with a role other than the three the loop looks for leaves
    both accumulators as they are, wherever it stands. *)
Lemma partition_loop_skip (before after : list message) (m : message)
      (r : pyval) (system_parts : list pyval)
      (chat_messages : list message) :
  dict_get "role" m = Some r ->
  r <> PStr "system" -> r <> PStr "user" -> r <> PStr "assistant" ->
  partition_loop (before ++ m :: after) system_parts chat_messages
  = partition_loop (before ++ after) system_parts chat_messages.
Proof.
  intros Hr Hsys Huser Hassistant.
  apply eq_str_false in Hsys, Huser, Hassistant.
  revert system_parts chat_messages.
  induction before as [|m' rest IH]; intros sys chat.
  - simpl. unfold getitem, in_strs. rewrite Hr. simpl.
    rewrite Hsys, Huser, Hassistant. reflexivity.
  - simpl.
    destruct (getitem m' "role") as [r'|e]; simpl; [|reflexivity].
    destruct (eq_str r' "system").
    + destruct (getitem m' "content"); simpl; [apply IH | reflexivity].
    + destruct (eq_str r' "user" || (eq_str r' "assistant" || false));
        [|apply IH].
      destruct (getitem m' "content"); simpl; [apply IH | reflexivity].
Qed.

(** C10.  In the remote strategy a message whose role is neither
    "system", "user" nor "assistant" is passed over: with or without it
    the partition of the conversation is the same, and so are the request,
    the returned count and the log. *)
Theorem claude_count_ignores_other_roles
        (before after : list message) (m : message) (r : pyval)
        (w : world) :
  dict_get "role" m = Some r ->
  r <> PStr "system" -> r <> PStr "user" -> r <> PStr "assistant" ->
  partition_loop (before ++ m :: after) [] []
  = partition_loop (before ++ after) [] []
  /\ count (before ++ m :: after) "anthropic/claude-3.7-sonnet" w
     = count (before ++ after) "anthropic/claude-3.7-sonnet" w.
Proof.
  intros Hr Hsys Huser Hassistant.
  pose proof (partition_loop_skip before after m r [] []
                Hr Hsys Huser Hassistant) as Hskip.
  split; [exact Hskip|].
  unfold num_tokens_from_messages, claude_count. simpl.
  unfold bind at 1 3. rewrite Hskip. reflexivity.
Qed.

(** *** Unrecognized models *)

(** C4.  For every sequence of messages, empty or not, a model identifier
    other than the three recognized ones makes the call raise the
    unsupported-model error at once: the world is as it was, so nothing
    was logged and no request was issued. *)
Theorem unsupported_model_raises
        (messages : list message) (model : string) (w : world) :
  model <> "openai/gpt-4o" ->
  model <> "anthropic/claude-3.7-sonnet" ->
  model <> "microsoft/wizardlm-2-8x22b" ->
  count messages model w
  = (Raise (ValueError ("Unsupported model: " ++ model)), w).
Proof.
  intros Hgpt Hclaude Hwizard.
  apply String.eqb_neq in Hgpt, Hclaude, Hwizard.
  unfold num_tokens_from_messages.
  rewrite Hgpt, Hclaude, Hwizard. reflexivity.
Qed.

(** *** The chat-template strategy *)

Local Abbreviation fallback_loop :=
  (fallback_loop TOKENIZER_WIZARDLM_encode).
Local Abbreviation _wizardlm_count :=
  (_wizardlm_count TOKENIZER_WIZARDLM_apply_chat_template
                   TOKENIZER_WIZARDLM_encode).
Local Abbreviation rendering_fails :=
  (rendering_fails TOKENIZER_WIZARDLM_apply_chat_template
                   TOKENIZER_WIZARDLM_encode).
Local Abbreviation raw_content_tokens :=
  (raw_content_tokens TOKENIZER_WIZARDLM_encode).
Local Abbreviation spec_fallback_total :=
  (spec_fallback_total TOKENIZER_WIZARDLM_encode).
Local Abbreviation fallback_encodable :=
  (fallback_encodable TOKENIZER_WIZARDLM_encode).

(** When rendering or encoding raises, the count is whatever the loop
    over the raw contents gives, be it a total or an exception. *)
Lemma wizardlm_count_falls_back (messages : list message) :
  rendering_fails messages = true ->
  _wizardlm_count messages = fallback_loop messages 0.
Proof.
  unfold rendering_fails, _wizardlm_count, rcatch.
  destruct (TOKENIZER_WIZARDLM_apply_chat_template messages false)
    as [formatted|e]; simpl; [|reflexivity].
  destruct (TOKENIZER_WIZARDLM_encode formatted false); simpl;
    [discriminate | reflexivity].
Qed.

Lemma fallback_loop_spec (messages : list message) (total : Z) :
  fallback_encodable messages = true ->
  fallback_loop messages total = Ok (total + spec_fallback_total messages).
Proof.
  revert total.
  induction messages as [|m rest IH]; intros total Henc.
  - simpl. f_equal. unfold spec_fallback_total. simpl. lia.
  - simpl in Henc. apply andb_true_iff in Henc as [Hm Henc].
    simpl. unfold spec_fallback_total, raw_content_tokens, getitem in *.
    simpl.
    destruct (dict_get "content" m) as [c|]; [|discriminate]. simpl.
    destruct (TOKENIZER_WIZARDLM_encode c false) as [toks|e];
      [|discriminate].
    simpl. rewrite (IH _ Henc). f_equal. lia.
Qed.

Lemma fallback_loop_lower (messages : list message) (total total' : Z) :
  fallback_loop messages total = Ok total' -> total <= total'.
Proof.
  revert total.
  induction messages as [|m rest IH]; intros total; simpl.
  - intros [= <-]. lia.
  - destruct (getitem m "content") as [c|e]; simpl; [|discriminate].
    destruct (TOKENIZER_WIZARDLM_encode c false) as [toks|e]; simpl;
      [|discriminate].
    intros H. apply IH in H. pose proof (len_nonneg toks). lia.
Qed.

(** C5, as amended.  With the chat-template strategy, when rendering the
    template or encoding the rendered string raises, and every message has
    a content that the tokenizer encodes, the call returns the sum over
    the messages of the token length of the raw content (encoded without
    special tokens) and raises nothing. *)
Theorem wizardlm_fallback_total
        (messages : list message) (w : world) :
  rendering_fails messages = true ->
  fallback_encodable messages = true ->
  count messages "microsoft/wizardlm-2-8x22b" w
  = (Ok (PInt (spec_fallback_total messages)), w).
Proof.
  intros Hfails Henc.
  unfold num_tokens_from_messages, lift. simpl.
  rewrite (wizardlm_count_falls_back _ Hfails).
  rewrite (fallback_loop_spec _ 0 Henc). reflexivity.
Qed.

(** *** The returned value *)

(** C9, as amended.  For a recognized model, whenever the call returns,
    what it returns is a non-negative integer, provided the endpoint
    reports a non-negative integer as [input_tokens] in its OK responses:
    the remote strategy hands that value on unchecked. *)
Theorem count_is_token_count
        (messages : list message) (model : string)
        (w w' : world) (v : pyval)
        (Hbackend : forall req r data x,
            endpoint req = Ok r -> status r = 200 ->
            response_json r = Ok data ->
            subscript data "input_tokens" = Ok x ->
            is_token_count x = true) :
  recognized model = true ->
  count messages model w = (Ok v, w') ->
  is_token_count v = true.
Proof.
  unfold recognized, num_tokens_from_messages.
  destruct (String.eqb model "openai/gpt-4o");
    [|destruct (String.eqb model "anthropic/claude-3.7-sonnet");
      [|destruct (String.eqb model "microsoft/wizardlm-2-8x22b")]];
    simpl; intros _; try discriminate.
  - unfold lift, _gpt4o_count.
    destruct (gpt4o_loop messages 0) as [k|e] eqn:Hk; simpl;
      [|discriminate].
    intros [= <- _]. simpl.
    apply gpt4o_loop_lower in Hk.
    pose proof (len_nonneg messages). apply Z.leb_le. lia.
  - unfold claude_count, bind at 1, lift at 1.
    destruct (partition_loop messages [] []) as [[sys chat]|e];
      [|discriminate].
    unfold try_except, bind, lift, session_post, logger_error, ret.
    destruct (str_join newline sys) as [s|e]; [|intros [= <- _]; reflexivity].
    destruct (endpoint (count_tokens_request ANTHROPIC_API_KEY s chat))
      as [r|e] eqn:Hr; [|intros [= <- _]; reflexivity].
    destruct (status r =? 200) eqn:Hstatus.
    + apply Z.eqb_eq in Hstatus.
      destruct (response_json r) as [data|e] eqn:Hdata;
        [|intros [= <- _]; reflexivity].
      destruct (subscript data "input_tokens") as [x|e] eqn:Hx;
        intros [= <- _]; [|reflexivity].
      exact (Hbackend _ _ _ _ Hr Hstatus Hdata Hx).
    + destruct (response_text r); intros [= <- _]; reflexivity.
  - unfold lift, _wizardlm_count, rcatch.
    destruct (TOKENIZER_WIZARDLM_apply_chat_template messages false)
      as [formatted|e]; simpl.
    + destruct (TOKENIZER_WIZARDLM_encode formatted false) as [toks|e];
        simpl.
      * intros [= <- _]. simpl. apply Z.leb_le, len_nonneg.
      * destruct (fallback_loop messages 0) as [k|e'] eqn:Hk; simpl;
          [|discriminate].
        intros [= <- _]. simpl. apply fallback_loop_lower in Hk.
        now apply Z.leb_le.
    + destruct (fallback_loop messages 0) as [k|e'] eqn:Hk; simpl;
        [|discriminate].
      intros [= <- _]. simpl. apply fallback_loop_lower in Hk.
      now apply Z.leb_le.
Qed.

End Properties.

(** ** The properties on concrete conversations *)

(** The mock endpoint reports what it was built with. *)
Lemma mock_endpoint_reports (code : Z) (reported : pyval)
      (req : request) (r : response) (data x : pyval) :
  mock_endpoint code reported req = Ok r ->
  response_json r = Ok data ->
  subscript data "input_tokens" = Ok x ->
  x = reported.
Proof.
  unfold mock_endpoint. intros [= <-]. simpl. intros [= <-]. simpl.
  now intros [= <-].
Qed.



Lemma gpt4o_count_overhead_bound_witness :
  mock_gpt4o_encode (PStr "") = Ok []
  /\ encodable_fields mock_gpt4o_encode short_chat = true
  /\ ((exists n,
          mock_count mock_unreachable short_chat "openai/gpt-4o" empty_world
          = (Ok (PInt n), empty_world)
          /\ 3 * (len short_chat + 1) <= n)
      /\ mock_count mock_unreachable
           [[("role", PStr "user"); ("content", PStr "")]]
           "openai/gpt-4o" empty_world
         = (Ok (PInt 6), empty_world)).
Proof.
  split; [reflexivity|]. split; [reflexivity|].
  apply (gpt4o_count_overhead_bound mock_gpt4o_encode
           mock_apply_chat_template mock_wizardlm_encode "sk-test"
           mock_unreachable short_chat empty_world); reflexivity.
Defined.

Lemma gpt4o_count_permutation_invariant_witness :
  Permutation (system_says "Be brief." :: short_chat)
              (user_says "hello" :: system_says "Be brief."
                 :: [assistant_says "hi"])
  /\ (returned
        (fst (mock_count mock_unreachable
                (system_says "Be brief." :: short_chat)
                "openai/gpt-4o" empty_world))
      = returned
          (fst (mock_count mock_unreachable
                  (user_says "hello" :: system_says "Be brief."
                     :: [assistant_says "hi"])
                  "openai/gpt-4o" empty_world))
      /\ snd (mock_count mock_unreachable
                (system_says "Be brief." :: short_chat)
                "openai/gpt-4o" empty_world)
         = snd (mock_count mock_unreachable
                  (user_says "hello" :: system_says "Be brief."
                     :: [assistant_says "hi"])
                  "openai/gpt-4o" empty_world)).
Proof.
  split; [apply perm_swap|].
  apply (gpt4o_count_permutation_invariant mock_gpt4o_encode
           mock_apply_chat_template mock_wizardlm_encode "sk-test"
           mock_unreachable).
  apply perm_swap.
Defined.

(** The endpoint reports 42 with status 200: the call returns 42. *)
Lemma claude_count_returns_reported_witness :
  remote_wf briefed_chat = true
  /\ mock_endpoint 200 (PInt 42) (spec_request "sk-test" briefed_chat)
     = Ok reply_42
  /\ status reply_42 = 200
  /\ response_json reply_42 = Ok (PDict [("input_tokens", PInt 42)])
  /\ subscript (PDict [("input_tokens", PInt 42)]) "input_tokens"
     = Ok (PInt 42)
  /\ mock_count (mock_endpoint 200 (PInt 42)) briefed_chat
       "anthropic/claude-3.7-sonnet" empty_world
     = (Ok (PInt 42), mk_world [] [spec_request "sk-test" briefed_chat]).
Proof.
  repeat (split; [reflexivity|]).
  apply (claude_count_returns_reported mock_gpt4o_encode
           mock_apply_chat_template mock_wizardlm_encode "sk-test"
           (mock_endpoint 200 (PInt 42)) briefed_chat empty_world
           reply_42 (PDict [("input_tokens", PInt 42)]) (PInt 42));
    reflexivity.
Defined.

(** The endpoint answers with status 500: the call returns 0 and logs. *)
Lemma claude_count_fails_open_witness :
  remote_wf briefed_chat = true
  /\ request_fails (mock_endpoint 500 (PInt 42))
                   (spec_request "sk-test" briefed_chat)
  /\ exists record : log_record,
      levelname record = "ERROR"
      /\ mock_count (mock_endpoint 500 (PInt 42)) briefed_chat
           "anthropic/claude-3.7-sonnet" empty_world
         = (Ok (PInt 0),
            mk_world [record] [spec_request "sk-test" briefed_chat]).
Proof.
  assert (Hfail : request_fails (mock_endpoint 500 (PInt 42))
                                (spec_request "sk-test" briefed_chat)).
  { apply fails_status with (r := reply_500).
    - reflexivity.
    - simpl. lia. }
  split; [reflexivity|]. split; [exact Hfail|].
  apply (claude_count_fails_open mock_gpt4o_encode mock_apply_chat_template
           mock_wizardlm_encode "sk-test" (mock_endpoint 500 (PInt 42))
           briefed_chat empty_world).
  - reflexivity.
  - exact Hfail.
Defined.

(** Two system messages around a user and an assistant message. *)
Lemma claude_count_request_payload_witness :
  remote_wf bilingual_chat = true
  /\ exists req : request,
      requests
        (snd (mock_count (mock_endpoint 200 (PInt 42)) bilingual_chat
                "anthropic/claude-3.7-sonnet" empty_world))
      = [req]
      /\ payload_system (json req)
         = "Be brief." ++ String "010" "Reply in French."
      /\ payload_messages (json req)
         = [[("role", PStr "user"); ("content", PStr "hi")];
            [("role", PStr "assistant"); ("content", PStr "salut")]].
Proof.
  split; [reflexivity|].
  apply (claude_count_request_payload mock_gpt4o_encode
           mock_apply_chat_template mock_wizardlm_encode "sk-test"
           (mock_endpoint 200 (PInt 42)) bilingual_chat empty_world).
  reflexivity.
Defined.

(** A message of role "tool" between a user and an assistant message. *)
Lemma claude_count_ignores_other_roles_witness :
  dict_get "role" tool_message = Some (PStr "tool")
  /\ PStr "tool" <> PStr "system"
  /\ PStr "tool" <> PStr "user"
  /\ PStr "tool" <> PStr "assistant"
  /\ (partition_loop ([user_says "hi"] ++ tool_message
                        :: [assistant_says "salut"]) [] []
      = partition_loop ([user_says "hi"] ++ [assistant_says "salut"]) [] []
      /\ mock_count (mock_endpoint 200 (PInt 42))
           ([user_says "hi"] ++ tool_message :: [assistant_says "salut"])
           "anthropic/claude-3.7-sonnet" empty_world
         = mock_count (mock_endpoint 200 (PInt 42))
             ([user_says "hi"] ++ [assistant_says "salut"])
             "anthropic/claude-3.7-sonnet" empty_world).
Proof.
  split; [reflexivity|]. repeat (split; [discriminate|]).
  apply (claude_count_ignores_other_roles mock_gpt4o_encode
           mock_apply_chat_template mock_wizardlm_encode "sk-test"
           (mock_endpoint 200 (PInt 42)) [user_says "hi"]
           [assistant_says "salut"] tool_message (PStr "tool") empty_world);
    [reflexivity | discriminate | discriminate | discriminate].
Defined.

Lemma unsupported_model_raises_witness :
  "unknown/model" <> "openai/gpt-4o"
  /\ "unknown/model" <> "anthropic/claude-3.7-sonnet"
  /\ "unknown/model" <> "microsoft/wizardlm-2-8x22b"
  /\ mock_count (mock_endpoint 200 (PInt 42)) short_chat
       "unknown/model" empty_world
     = (Raise (ValueError "Unsupported model: unknown/model"), empty_world).
Proof.
  repeat (split; [discriminate|]).
  apply (unsupported_model_raises mock_gpt4o_encode mock_apply_chat_template
           mock_wizardlm_encode "sk-test" (mock_endpoint 200 (PInt 42))
           short_chat "unknown/model" empty_world); discriminate.
Defined.

(** A text with a byte outside the tokenizer's vocabulary: encoding the
    rendered chat raises, and so does the fallback on the raw content; the
    exception reaches the caller. *)
Lemma wizardlm_fallback_can_raise :
  rendering_fails mock_apply_chat_template mock_wizardlm_encode accented_chat
  = true
  /\ mock_count mock_unreachable accented_chat
       "microsoft/wizardlm-2-8x22b" empty_world
     = (Raise (ValueError "byte outside the vocabulary"), empty_world).
Proof.
  split; reflexivity.
Defined.

(** A template that does not render, contents of 5 and 2 tokens. *)
Lemma wizardlm_fallback_total_witness :
  rendering_fails mock_broken_template mock_wizardlm_encode short_chat = true
  /\ fallback_encodable mock_wizardlm_encode short_chat = true
  /\ mock_count_broken_template short_chat
       "microsoft/wizardlm-2-8x22b" empty_world
     = (Ok (PInt 7), empty_world).
Proof.
  split; [reflexivity|]. split; [reflexivity|].
  apply (wizardlm_fallback_total mock_gpt4o_encode mock_broken_template
           mock_wizardlm_encode "sk-test" mock_unreachable
           short_chat empty_world); reflexivity.
Defined.

(** An endpoint that reports -1 with status 200: the call returns -1,
    which is no token count. *)
Lemma claude_count_can_be_negative :
  recognized "anthropic/claude-3.7-sonnet" = true
  /\ mock_count (mock_endpoint 200 (PInt (-1))) briefed_chat
       "anthropic/claude-3.7-sonnet" empty_world
     = (Ok (PInt (-1)), mk_world [] [spec_request "sk-test" briefed_chat])
  /\ is_token_count (PInt (-1)) = false.
Proof.
  repeat split.
Defined.

Lemma count_is_token_count_witness :
  (forall req r data x,
      mock_endpoint 200 (PInt 42) req = Ok r -> status r = 200 ->
      response_json r = Ok data ->
      subscript data "input_tokens" = Ok x ->
      is_token_count x = true)
  /\ recognized "anthropic/claude-3.7-sonnet" = true
  /\ mock_count (mock_endpoint 200 (PInt 42)) briefed_chat
       "anthropic/claude-3.7-sonnet" empty_world
     = (Ok (PInt 42), mk_world [] [spec_request "sk-test" briefed_chat])
  /\ is_token_count (PInt 42) = true.
Proof.
  assert (Hbackend : forall req r data x,
             mock_endpoint 200 (PInt 42) req = Ok r -> status r = 200 ->
             response_json r = Ok data ->
             subscript data "input_tokens" = Ok x ->
             is_token_count x = true).
  { intros req r data x Hr _ Hdata Hx.
    rewrite (mock_endpoint_reports 200 (PInt 42) req r data x Hr Hdata Hx).
    reflexivity. }
  split; [exact Hbackend|]. split; [reflexivity|]. split; [reflexivity|].
  apply (count_is_token_count mock_gpt4o_encode mock_apply_chat_template
           mock_wizardlm_encode "sk-test" (mock_endpoint 200 (PInt 42))
           briefed_chat "anthropic/claude-3.7-sonnet" empty_world
           (mk_world [] [spec_request "sk-test" briefed_chat]) (PInt 42)
           Hbackend);
    reflexivity.
Defined.

(** ** More about the dispatcher *)

Section DispatcherProperties.

Variable ENCODING_GPT4O_encode : pyval -> result (list Z).
Variable TOKENIZER_WIZARDLM_apply_chat_template :
  list message -> bool -> result pyval.
Variable TOKENIZER_WIZARDLM_encode : pyval -> bool -> result (list Z).
Variable ANTHROPIC_API_KEY : string.
Variable endpoint : request -> result response.

Local Abbreviation count :=
  (num_tokens_from_messages ENCODING_GPT4O_encode
     TOKENIZER_WIZARDLM_apply_chat_template TOKENIZER_WIZARDLM_encode
     ANTHROPIC_API_KEY endpoint).
Local Abbreviation items_loop := (items_loop ENCODING_GPT4O_encode).
Local Abbreviation gpt4o_loop := (gpt4o_loop ENCODING_GPT4O_encode).
Local Abbreviation _gpt4o_count := (_gpt4o_count ENCODING_GPT4O_encode).
Local Abbreviation encodable_fields :=
  (encodable_fields ENCODING_GPT4O_encode).
Local Abbreviation claude_count :=
  (claude_count ANTHROPIC_API_KEY endpoint).
Local Abbreviation fallback_loop :=
  (fallback_loop TOKENIZER_WIZARDLM_encode).
Local Abbreviation _wizardlm_count :=
  (_wizardlm_count TOKENIZER_WIZARDLM_apply_chat_template
                   TOKENIZER_WIZARDLM_encode).
Local Abbreviation rendering_fails :=
  (rendering_fails TOKENIZER_WIZARDLM_apply_chat_template
                   TOKENIZER_WIZARDLM_encode).
Local Abbreviation fallback_encodable :=
  (fallback_encodable TOKENIZER_WIZARDLM_encode).

(** *** The local BPE strategy *)

Lemma items_loop_ok (m : message) (n : Z) :
  is_ok (items_loop m n)
  = forallb (fun kv : string * pyval =>
               if counted_key (fst kv)
               then is_ok (ENCODING_GPT4O_encode (snd kv)) else true) m.
Proof.
  revert n.
  induction m as [|[key value] rest IH]; intros n; simpl; [reflexivity|].
  unfold counted_key.
  destruct (String.eqb key "content");
    [|destruct (String.eqb key "name")]; simpl.
  1,2: destruct (ENCODING_GPT4O_encode value) as [toks|e]; simpl;
    [apply IH | reflexivity].
  apply IH.
Qed.

Lemma gpt4o_loop_ok (messages : list message) (n : Z) :
  is_ok (gpt4o_loop messages n) = encodable_fields messages.
Proof.
  revert n.
  induction messages as [|m rest IH]; intros n; [reflexivity|].
  unfold encodable_fields in *. simpl.
  rewrite <- (items_loop_ok m (n + 3)).
  destruct (items_loop m (n + 3)) as [k|e]; simpl; [apply IH | reflexivity].
Qed.


Lemma gpt4o_loop_cons (m : message) (rest : list message) (n : Z) :
  gpt4o_loop (m :: rest) n
  = (k <- items_loop m (n + 3) ;; gpt4o_loop rest k).
Proof. reflexivity. Qed.

Lemma gpt4o_loop_shift (messages : list message) (n : Z) :
  gpt4o_loop messages n = (k <- gpt4o_loop messages 0 ;; Ok (n + k)).
Proof.
  revert n.
  induction messages as [|m rest IH]; intros n.
  - simpl. f_equal. lia.
  - rewrite !gpt4o_loop_cons.
    rewrite (items_loop_shift ENCODING_GPT4O_encode m (n + 3)).
    rewrite (items_loop_shift ENCODING_GPT4O_encode m (0 + 3)).
    destruct (items_loop m 0) as [k|e]; cbn [rbind]; [|reflexivity].
    rewrite (IH (n + 3 + k)), (IH (0 + 3 + k)).
    destruct (gpt4o_loop rest 0); cbn [rbind]; [f_equal; lia | reflexivity].
Qed.

Lemma gpt4o_loop_app (a b : list message) (n : Z) :
  gpt4o_loop (a ++ b) n = (k <- gpt4o_loop a n ;; gpt4o_loop b k).
Proof.
  revert n.
  induction a as [|m rest IH]; intros n; simpl; [reflexivity|].
  destruct (items_loop m (n + 3)); simpl; [apply IH | reflexivity].
Qed.

(** X2.  The local BPE count is additive: when two conversations count [x]
    and [y], their concatenation counts [x + y - 3], the assistant priming
    being added once. *)
Theorem gpt4o_count_concat
        (a b : list message) (x y : Z) (w : world) :
  count a "openai/gpt-4o" w = (Ok (PInt x), w) ->
  count b "openai/gpt-4o" w = (Ok (PInt y), w) ->
  count (a ++ b) "openai/gpt-4o" w = (Ok (PInt (x + y - 3)), w).
Proof.
  unfold num_tokens_from_messages, lift, _gpt4o_count. simpl.
  rewrite gpt4o_loop_app.
  destruct (gpt4o_loop a 0) as [ka|e]; simpl; [|discriminate].
  intros [= <-].
  rewrite (gpt4o_loop_shift b ka).
  destruct (gpt4o_loop b 0) as [kb|e]; simpl; [|discriminate].
  intros [= <-]. do 3 f_equal. lia.
Qed.

Lemma items_loop_counted (m : message) (n : Z) :
  items_loop (counted_items m) n = items_loop m n.
Proof.
  revert n.
  induction m as [|[key value] rest IH]; intros n; [reflexivity|].
  unfold counted_items, counted_key in *. simpl.
  destruct (String.eqb key "content") eqn:Hc; simpl.
  - rewrite Hc.
    destruct (ENCODING_GPT4O_encode value); simpl; [apply IH | reflexivity].
  - destruct (String.eqb key "name") eqn:Hn; simpl.
    + rewrite Hc, Hn.
      destruct (ENCODING_GPT4O_encode value); simpl;
        [apply IH | reflexivity].
    + apply IH.
Qed.

(** X3.  The local BPE strategy reads nothing of a message but its content
    and name entries: dropping every other entry, the role included, changes
    neither the result nor the world. *)
Theorem gpt4o_count_reads_content_and_name
        (messages : list message) (w : world) :
  count (map counted_items messages) "openai/gpt-4o" w
  = count messages "openai/gpt-4o" w.
Proof.
  unfold num_tokens_from_messages, lift, _gpt4o_count. simpl.
  do 2 f_equal. generalize 0.
  induction messages as [|m rest IH]; intros n; simpl; [reflexivity|].
  rewrite items_loop_counted.
  destruct (items_loop m (n + 3)); simpl; [apply IH | reflexivity].
Qed.

(** *** The remote counting strategy *)

(** Whatever the endpoint does, the guarded part of the branch returns. *)
Lemma claude_guarded_returns (system_parts : list pyval)
      (chat_messages : list message) (w : world) :
  exists (v : pyval) (logs : list log_record) (reqs : list request),
    try_except
      (system <~ lift (str_join newline system_parts) ;;
       response <~ session_post endpoint
         (count_tokens_request ANTHROPIC_API_KEY system chat_messages) ;;
       if status response =? 200 then
         data <~ lift (response_json response) ;;
         lift (subscript data "input_tokens")
       else
         error <~ lift (response_text response) ;;
         _ <~ logger_error "Anthropic token count failed:" None ;;
         ret (PInt 0))
      (fun e =>
         _ <~ logger_error "Anthropic API error:" (Some e) ;;
         ret (PInt 0)) w
    = (Ok v, mk_world (log w ++ logs)%list (requests w ++ reqs)%list)
    /\ (length logs <= 1)%nat /\ (length reqs <= 1)%nat
    /\ (logs <> [] -> v = PInt 0).
Proof.
  unfold try_except, bind, lift, session_post, logger_error, ret.
  destruct (str_join newline system_parts) as [s|e].
  2: { eexists _, [_], []. rewrite app_nil_r. simpl. auto. }
  destruct (endpoint _) as [r|e]; simpl.
  2: { eexists _, [_], [_]. simpl. auto. }
  destruct (status r =? 200).
  - destruct (response_json r) as [data|e]; simpl.
    2: { eexists _, [_], [_]. simpl. auto. }
    destruct (subscript data "input_tokens") as [v|e]; simpl.
    + eexists v, [], [_]. rewrite app_nil_r. simpl.
      repeat split; auto. congruence.
    + eexists _, [_], [_]. simpl. auto.
  - destruct (response_text r); simpl; eexists _, [_], [_]; simpl; auto.
Qed.

Lemma partition_loop_raises (messages : list message)
      (system_parts : list pyval) (chat_messages : list message) (e : exn) :
  partition_loop messages system_parts chat_messages = Raise e ->
  e = KeyError "role" \/ e = KeyError "content".
Proof.
  revert system_parts chat_messages.
  induction messages as [|m rest IH]; intros sys chat; simpl; [discriminate|].
  unfold getitem.
  destruct (dict_get "role" m) as [r|]; simpl; [|intros [= <-]; auto].
  destruct (eq_str r "system").
  - destruct (dict_get "content" m); simpl; [apply IH | intros [= <-]; auto].
  - destruct (eq_str r "user" || (eq_str r "assistant" || false));
      [|apply IH].
    destruct (dict_get "content" m); simpl; [apply IH | intros [= <-]; auto].
Qed.

(** X4.  The only exception that leaves the remote strategy is the KeyError
    of a message without role, or without content where the loop reads it;
    it is raised before anything is logged or sent. *)
Theorem claude_count_raises_only_key_error
        (messages : list message) (w w' : world) (e : exn) :
  count messages "anthropic/claude-3.7-sonnet" w = (Raise e, w') ->
  w' = w /\ (e = KeyError "role" \/ e = KeyError "content").
Proof.
  unfold num_tokens_from_messages, claude_count. simpl.
  unfold bind at 1, lift at 1.
  destruct (partition_loop messages [] []) as [[sys chat]|e'] eqn:Hloop.
  - destruct (claude_guarded_returns sys chat w)
      as (v & logs & reqs & -> & _).
    discriminate.
  - intros [= <- <-]. split; [reflexivity|].
    exact (partition_loop_raises _ _ _ _ Hloop).
Qed.

Lemma partition_loop_ok (messages : list message)
      (system_parts : list pyval) (chat_messages : list message) :
  is_ok (partition_loop messages system_parts chat_messages)
  = partitionable messages.
Proof.
  revert system_parts chat_messages.
  induction messages as [|m rest IH]; intros sys chat; [reflexivity|].
  simpl. unfold partitionable_message, getitem, in_strs. simpl.
  destruct (dict_get "role" m) as [r|]; simpl; [|reflexivity].
  destruct (eq_str r "system"); simpl.
  - destruct (dict_get "content" m); simpl; [apply IH | reflexivity].
  - destruct (eq_str r "user" || (eq_str r "assistant" || false));
      [|apply IH].
    destruct (dict_get "content" m); simpl; [apply IH | reflexivity].
Qed.

(** X5.  Whatever the endpoint does, the remote strategy returns a value
    exactly when every message has a role and every system, user or
    assistant message has a content. *)
Theorem claude_count_returns_iff_partitionable
        (messages : list message) (w : world) :
  is_ok (fst (count messages "anthropic/claude-3.7-sonnet" w))
  = partitionable messages.
Proof.
  rewrite <- (partition_loop_ok messages [] []).
  unfold num_tokens_from_messages, claude_count. simpl.
  unfold bind at 1, lift at 1.
  destruct (partition_loop messages [] []) as [[sys chat]|e]; [|reflexivity].
  destruct (claude_guarded_returns sys chat w) as (v & logs & reqs & -> & _).
  reflexivity.
Qed.

(** X6.  When the messages can be partitioned but a system message has a
    content that is not text, joining the system parts raises inside the
    [try]: no request is sent, the error is logged with its exception, and
    the call returns 0. *)
Theorem claude_count_untexted_system
        (messages : list message) (w : world) :
  partitionable messages = true ->
  remote_wf messages = false ->
  exists e : exn,
    count messages "anthropic/claude-3.7-sonnet" w
    = (Ok (PInt 0),
       mk_world
         (log w ++ [mk_log_record "ERROR" "Anthropic API error:" (Some e)])%list
         (requests w)).
Proof.
  intros Hpart Hwf.
  rewrite <- (partition_loop_ok messages [] []) in Hpart.
  unfold num_tokens_from_messages, claude_count. simpl.
  unfold bind at 1, lift at 1.
  destruct (partition_loop messages [] []) as [[sys chat]|e] eqn:Hloop;
    [|discriminate].
  unfold try_except, bind, lift, logger_error, ret, str_join.
  destruct (str_parts sys) as [l|e] eqn:Hjoin; simpl.
  - assert (remote_wf messages = true) as Habs.
    { apply (remote_wf_of_partition _ _ _ _ _ Hloop). now rewrite Hjoin. }
    congruence.
  - exists e. reflexivity.
Qed.

Lemma count_outcome (messages : list message) (model : string) (w : world) :
  exists (r : result pyval) (logs : list log_record) (reqs : list request),
    count messages model w
    = (r, mk_world (log w ++ logs)%list (requests w ++ reqs)%list)
    /\ (length logs <= 1)%nat /\ (length reqs <= 1)%nat
    /\ (model <> "anthropic/claude-3.7-sonnet" -> logs = [] /\ reqs = [])
    /\ (logs <> [] -> r = Ok (PInt 0)).
Proof.
  assert (Hquiet : forall r : result pyval,
             exists (r' : result pyval)
                    (logs : list log_record) (reqs : list request),
               (r, w)
               = (r', mk_world (log w ++ logs)%list (requests w ++ reqs)%list)
               /\ (length logs <= 1)%nat /\ (length reqs <= 1)%nat
               /\ (model <> "anthropic/claude-3.7-sonnet" ->
                   logs = [] /\ reqs = [])
               /\ (logs <> [] -> r' = Ok (PInt 0))).
  { intros r. exists r, [], []. rewrite !app_nil_r. destruct w. simpl.
    repeat split; auto; congruence. }
  unfold num_tokens_from_messages, lift, raise.
  destruct (String.eqb model "openai/gpt-4o"); [apply Hquiet|].
  destruct (String.eqb model "anthropic/claude-3.7-sonnet") eqn:Hmodel.
  - apply String.eqb_eq in Hmodel.
    unfold claude_count, bind at 1, lift at 1.
    destruct (partition_loop messages [] []) as [[sys chat]|e];
      [|apply Hquiet].
    destruct (claude_guarded_returns sys chat w)
      as (v & logs & reqs & -> & Hlogs & Hreqs & Hzero).
    exists (Ok v), logs, reqs. repeat split; auto; try congruence.
    intros Hne. now rewrite (Hzero Hne).
  - destruct (String.eqb model "microsoft/wizardlm-2-8x22b"); apply Hquiet.
Qed.

(** X7.  One call writes at most one log record and issues at most one
    request, and only the remote strategy does either; a record is written
    only by a call that returns 0. *)
Theorem count_effects_bounded
        (messages : list message) (model : string) (w : world) :
  exists (logs : list log_record) (reqs : list request),
    snd (count messages model w)
    = mk_world (log w ++ logs)%list (requests w ++ reqs)%list
    /\ (length logs <= 1)%nat /\ (length reqs <= 1)%nat
    /\ (model <> "anthropic/claude-3.7-sonnet" -> logs = [] /\ reqs = [])
    /\ (logs <> [] -> fst (count messages model w) = Ok (PInt 0)).
Proof.
  destruct (count_outcome messages model w)
    as (r & logs & reqs & -> & Hlogs & Hreqs & Hlocal & Hzero).
  exists logs, reqs. simpl. auto.
Qed.

(** X8.  The remote strategy depends on the conversation only through the
    sequence of its system messages and the sequence of its user and
    assistant messages: two well-formed conversations that agree on both
    give the same run, however the two sequences are interleaved and
    whatever other messages stand between them. *)
Theorem claude_count_depends_on_subsequences
        (a b : list message) (w : world) :
  remote_wf a = true ->
  remote_wf b = true ->
  filter (has_role "system") a = filter (has_role "system") b ->
  filter is_chat a = filter is_chat b ->
  count a "anthropic/claude-3.7-sonnet" w
  = count b "anthropic/claude-3.7-sonnet" w.
Proof.
  intros Ha Hb Hsys Hchat.
  unfold num_tokens_from_messages, claude_count. simpl.
  unfold bind at 1 3, lift at 1 5.
  rewrite (partition_loop_spec a [] [] Ha), (partition_loop_spec b [] [] Hb).
  unfold spec_chat_messages. rewrite Hsys, Hchat. reflexivity.
Qed.

(** *** The chat-template strategy *)

Lemma fallback_loop_ok (messages : list message) (total : Z) :
  is_ok (fallback_loop messages total) = fallback_encodable messages.
Proof.
  revert total.
  induction messages as [|m rest IH]; intros total; [reflexivity|].
  simpl. unfold getitem.
  destruct (dict_get "content" m) as [c|]; simpl; [|reflexivity].
  destruct (TOKENIZER_WIZARDLM_encode c false); simpl;
    [apply IH | reflexivity].
Qed.


End DispatcherProperties.

(** Conversations of 16 and 20 tokens: together 33. *)
Lemma gpt4o_count_concat_witness :
  mock_count mock_unreachable short_chat "openai/gpt-4o" empty_world
  = (Ok (PInt 16), empty_world)
  /\ mock_count mock_unreachable briefed_chat "openai/gpt-4o" empty_world
     = (Ok (PInt 20), empty_world)
  /\ mock_count mock_unreachable (short_chat ++ briefed_chat)
       "openai/gpt-4o" empty_world
     = (Ok (PInt (16 + 20 - 3)), empty_world).
Proof.
  split; [reflexivity|]. split; [reflexivity|].
  apply (gpt4o_count_concat mock_gpt4o_encode mock_apply_chat_template
           mock_wizardlm_encode "sk-test" mock_unreachable
           short_chat briefed_chat 16 20 empty_world); reflexivity.
Defined.

(** The second message has no role. *)
Lemma claude_count_raises_only_key_error_witness :
  mock_count (mock_endpoint 200 (PInt 42)) roleless_chat
    "anthropic/claude-3.7-sonnet" empty_world
  = (Raise (KeyError "role"), empty_world)
  /\ (empty_world = empty_world
      /\ (KeyError "role" = KeyError "role"
          \/ KeyError "role" = KeyError "content")).
Proof.
  split; [reflexivity|].
  apply (claude_count_raises_only_key_error mock_gpt4o_encode
           mock_apply_chat_template mock_wizardlm_encode "sk-test"
           (mock_endpoint 200 (PInt 42)) roleless_chat
           empty_world empty_world (KeyError "role")).
  reflexivity.
Defined.

(** A system message whose content is None. *)
Lemma claude_count_untexted_system_witness :
  partitionable untexted_chat = true
  /\ remote_wf untexted_chat = false
  /\ exists e : exn,
      mock_count (mock_endpoint 200 (PInt 42)) untexted_chat
        "anthropic/claude-3.7-sonnet" empty_world
      = (Ok (PInt 0),
         mk_world [mk_log_record "ERROR" "Anthropic API error:" (Some e)] []).
Proof.
  split; [reflexivity|]. split; [reflexivity|].
  apply (claude_count_untexted_system mock_gpt4o_encode
           mock_apply_chat_template mock_wizardlm_encode "sk-test"
           (mock_endpoint 200 (PInt 42)) untexted_chat empty_world);
    reflexivity.
Defined.

(** The system message moved behind the user message, a tool message
    dropped. *)
Lemma claude_count_depends_on_subsequences_witness :
  remote_wf (briefed_chat ++ [tool_message]) = true
  /\ remote_wf [user_says "hi"; system_says "Be brief."] = true
  /\ filter (has_role "system") (briefed_chat ++ [tool_message])
     = filter (has_role "system") [user_says "hi"; system_says "Be brief."]
  /\ filter is_chat (briefed_chat ++ [tool_message])
     = filter is_chat [user_says "hi"; system_says "Be brief."]
  /\ mock_count (mock_endpoint 200 (PInt 42))
       (briefed_chat ++ [tool_message])
       "anthropic/claude-3.7-sonnet" empty_world
     = mock_count (mock_endpoint 200 (PInt 42))
         [user_says "hi"; system_says "Be brief."]
         "anthropic/claude-3.7-sonnet" empty_world.
Proof.
  repeat (split; [reflexivity|]).
  apply (claude_count_depends_on_subsequences mock_gpt4o_encode
           mock_apply_chat_template mock_wizardlm_encode "sk-test"
           (mock_endpoint 200 (PInt 42))); reflexivity.
Defined.


(** ** The path helpers *)

(** Facts about strings. *)

Lemma append_nil_r (s : string) : s ++ "" = s.
Proof. induction s as [|a s IH]; simpl; [reflexivity | now rewrite IH]. Qed.

Lemma append_assoc (a b c : string) : (a ++ b) ++ c = a ++ (b ++ c).
Proof. induction a as [|x a IH]; simpl; [reflexivity | now rewrite IH]. Qed.

Lemma append_length (a b : string) :
  String.length (a ++ b) = (String.length a + String.length b)%nat.
Proof. induction a as [|x a IH]; simpl; [reflexivity | now rewrite IH]. Qed.

Lemma append_inv_head (a b c : string) : a ++ b = a ++ c -> b = c.
Proof.
  induction a as [|x a IH]; simpl; [auto|]. intros [= H]. auto.
Qed.

Lemma append_inv_tail (a b t : string) : a ++ t = b ++ t -> a = b.
Proof.
  revert b.
  induction a as [|x a IH]; intros [|y b]; simpl; intros H.
  - reflexivity.
  - apply (f_equal String.length) in H. simpl in H.
    rewrite append_length in H. lia.
  - apply (f_equal String.length) in H. simpl in H.
    rewrite append_length in H. lia.
  - injection H as -> H. f_equal. auto.
Qed.

Lemma has_char_append (c : ascii) (a b : string) :
  has_char c (a ++ b) = has_char c a || has_char c b.
Proof.
  induction a as [|x a IH]; simpl; [reflexivity|].
  now rewrite IH, orb_assoc.
Qed.

(** Two strings cut at the first occurrence of a character agree on both
    sides of the cut. *)
Lemma split_at_char (c : ascii) (a a' r r' : string) :
  has_char c a = false -> has_char c a' = false ->
  a ++ String c r = a' ++ String c r' -> a = a' /\ r = r'.
Proof.
  revert a'.
  induction a as [|x a IH]; intros [|y a']; simpl; intros Ha Ha' H.
  - injection H as ->. auto.
  - injection H as <- _. rewrite Ascii.eqb_refl in Ha'. discriminate.
  - injection H as -> _. rewrite Ascii.eqb_refl in Ha. discriminate.
  - injection H as -> H.
    apply orb_false_elim in Ha as [_ Ha].
    apply orb_false_elim in Ha' as [_ Ha'].
    destruct (IH a' Ha Ha' H) as [-> ->]. auto.
Qed.

Lemma all_chars_has_char (p : ascii -> bool) (c : ascii) (s : string) :
  all_chars p s = true -> p c = false -> has_char c s = false.
Proof.
  intros Hs Hc.
  induction s as [|a s IH]; simpl in *; [reflexivity|].
  apply andb_true_iff in Hs as [Ha Hs].
  rewrite (IH Hs), orb_false_r.
  destruct (Ascii.eqb_spec a c) as [->|]; [congruence | reflexivity].
Qed.

Lemma startswith_char_absent (c : ascii) (s : string) :
  has_char c s = false -> startswith_char s c = false.
Proof.
  destruct s as [|a s]; simpl; [reflexivity|].
  intros H. now apply orb_false_elim in H as [H _].
Qed.

Lemma endswith_char_absent (c : ascii) (s : string) :
  has_char c s = false -> endswith_char s c = false.
Proof.
  induction s as [|a s IH]; simpl; [reflexivity|].
  intros H. apply orb_false_elim in H as [Ha Hs].
  destruct s; auto.
Qed.

Lemma endswith_char_append (c : ascii) (a b : string) :
  b <> "" -> endswith_char (a ++ b) c = endswith_char b c.
Proof.
  intros Hb.
  induction a as [|x a IH]; [reflexivity|].
  simpl. destruct (a ++ b) eqn:Hab; [|exact IH].
  destruct a; simpl in Hab; [congruence | discriminate].
Qed.

(** Facts about decimal numerals. *)

Lemma string_of_uint_numeral (d : Decimal.uint) :
  all_chars numeral_char (NilEmpty.string_of_uint d) = true.
Proof. induction d; simpl; auto. Qed.

Lemma str_int_numeral (n : Z) : all_chars numeral_char (str_int n) = true.
Proof.
  unfold str_int, NilZero.string_of_int, NilZero.string_of_uint.
  destruct (Z.to_int n) as [d|d]; destruct d; simpl;
    auto using string_of_uint_numeral.
Qed.

Lemma str_int_nonempty (n : Z) : str_int n <> "".
Proof.
  unfold str_int, NilZero.string_of_int, NilZero.string_of_uint.
  destruct (Z.to_int n) as [d|d]; destruct d; simpl; discriminate.
Qed.

Lemma to_int_proper (n : Z) :
  Z.to_int n <> Decimal.Pos Decimal.Nil
  /\ Z.to_int n <> Decimal.Neg Decimal.Nil.
Proof.
  destruct n as [|p|p]; simpl; split; try discriminate;
    intros [= H]; exact (DecimalPos.Unsigned.to_uint_nonnil p H).
Qed.

(** [str] is one-to-one on ints. *)
Lemma str_int_inj (n n' : Z) : str_int n = str_int n' -> n = n'.
Proof.
  unfold str_int. intros H.
  apply (f_equal NilZero.int_of_string) in H.
  destruct (to_int_proper n) as [Hp Hn], (to_int_proper n') as [Hp' Hn'].
  rewrite !NilZero.isi in H by assumption.
  injection H as H. now apply DecimalZ.to_int_inj.
Qed.

Lemma str_int_plain (n : Z) : plain_component (str_int n) = true.
Proof.
  unfold plain_component.
  rewrite (all_chars_has_char _ "/" _ (str_int_numeral n) eq_refl).
  destruct (String.eqb_spec (str_int n) "") as [H|_]; [|reflexivity].
  now apply str_int_nonempty in H.
Qed.

Lemma json_name_plain (stem : string) :
  has_char "/" stem = false -> plain_component (stem ++ ".json") = true.
Proof.
  intros H. unfold plain_component.
  rewrite has_char_append, H.
  destruct stem; reflexivity.
Qed.

(** Facts about [os.path.join]. *)

Lemma join_step_plain (path b : string) :
  open_path path -> plain_component b = true ->
  join_step path b = path ++ "/" ++ b /\ open_path (path ++ "/" ++ b).
Proof.
  intros [Hne Hend] Hb. unfold plain_component in Hb.
  apply andb_true_iff in Hb as [Hb Hslash].
  apply negb_true_iff in Hb, Hslash. apply String.eqb_neq in Hb.
  unfold join_step.
  rewrite (startswith_char_absent _ _ Hslash), Hend.
  apply String.eqb_neq in Hne. rewrite Hne. simpl.
  apply String.eqb_neq in Hne.
  split; [reflexivity|]. split.
  - destruct path; [congruence | discriminate].
  - change (String "/" b) with ("/" ++ b).
    rewrite <- append_assoc, endswith_char_append by assumption.
    now apply endswith_char_absent.
Qed.

Lemma os_path_join_plain (components : list string) (path : string) :
  open_path path -> forallb plain_component components = true ->
  os_path_join path components
  = fold_left (fun p b => p ++ "/" ++ b) components path
  /\ open_path (os_path_join path components).
Proof.
  revert path.
  induction components as [|b rest IH]; intros path Hpath Hall; simpl.
  - auto.
  - simpl in Hall. apply andb_true_iff in Hall as [Hb Hrest].
    destruct (join_step_plain path b Hpath Hb) as [-> Hopen].
    apply (IH _ Hopen Hrest).
Qed.

Section PathProperties.

Variable ROOT_DIR : string.

Local Abbreviation DATA_DIR := (DATA_DIR ROOT_DIR).
Local Abbreviation get_guild_dir := (get_guild_dir ROOT_DIR).
Local Abbreviation get_channel_path := (get_channel_path ROOT_DIR).
Local Abbreviation get_game_path := (get_game_path ROOT_DIR).
Local Abbreviation get_text_game_path := (get_text_game_path ROOT_DIR).
Local Abbreviation get_player_cards_dir := (get_player_cards_dir ROOT_DIR).
Local Abbreviation get_player_card_path := (get_player_card_path ROOT_DIR).
Local Abbreviation ai_manager_role_file := (ai_manager_role_file ROOT_DIR).

(** Whatever the root, the data directory ends with ["data"]. *)
Lemma data_dir_open : open_path DATA_DIR.
Proof.
  unfold DATA_DIR, os_path_join, join_step. simpl.
  destruct (String.eqb ROOT_DIR "" || endswith_char ROOT_DIR "/"); split.
  - destruct ROOT_DIR; discriminate.
  - now rewrite endswith_char_append.
  - destruct ROOT_DIR; discriminate.
  - change (String "/" "data") with ("/" ++ "data").
    rewrite <- append_assoc. now rewrite endswith_char_append.
Qed.

Lemma get_guild_dir_eq (guild_id : Z) :
  get_guild_dir guild_id = DATA_DIR ++ "/" ++ str_int guild_id
  /\ open_path (get_guild_dir guild_id).
Proof.
  unfold get_guild_dir.
  destruct (os_path_join_plain [str_int guild_id] DATA_DIR data_dir_open)
    as [Heq Hopen].
  - simpl. now rewrite str_int_plain.
  - split; [exact Heq | exact Hopen].
Qed.

Lemma json_of_int_plain (n : Z) :
  plain_component (str_int n ++ ".json") = true.
Proof.
  apply json_name_plain.
  exact (all_chars_has_char _ "/" _ (str_int_numeral n) eq_refl).
Qed.

Lemma get_channel_path_eq (guild_id channel_id : Z) :
  get_channel_path guild_id channel_id
  = DATA_DIR ++ "/" ++ str_int guild_id ++ "/" ++ str_int channel_id
      ++ ".json".
Proof.
  unfold get_channel_path.
  destruct (get_guild_dir_eq guild_id) as [Hdir Hopen].
  destruct (os_path_join_plain [str_int channel_id ++ ".json"] _ Hopen)
    as [-> _].
  - simpl. now rewrite json_of_int_plain.
  - simpl. rewrite Hdir, !append_assoc. reflexivity.
Qed.

Lemma ai_manager_role_file_eq (guild_id : Z) :
  ai_manager_role_file guild_id
  = DATA_DIR ++ "/" ++ str_int guild_id ++ "/" ++ "ai_manager_role.json".
Proof.
  unfold ai_manager_role_file.
  destruct (get_guild_dir_eq guild_id) as [Hdir Hopen].
  destruct (os_path_join_plain ["ai_manager_role.json"] _ Hopen) as [-> _].
  - reflexivity.
  - simpl. rewrite Hdir, !append_assoc. reflexivity.
Qed.

Lemma get_game_path_eq (guild_id user_id : Z) :
  get_game_path guild_id user_id
  = DATA_DIR ++ "/" ++ str_int guild_id ++ "/" ++ "games/monkeyspaw/"
      ++ str_int user_id ++ ".json".
Proof.
  unfold get_game_path.
  destruct (os_path_join_plain
              [str_int guild_id; "games"; "monkeyspaw";
               str_int user_id ++ ".json"] DATA_DIR data_dir_open)
    as [-> _].
  - simpl. now rewrite str_int_plain, json_of_int_plain.
  - simpl. rewrite !append_assoc. reflexivity.
Qed.

Lemma get_text_game_path_eq (guild_id channel_id : Z) :
  get_text_game_path guild_id channel_id
  = DATA_DIR ++ "/" ++ str_int guild_id ++ "/" ++ "games/textadventure/"
      ++ str_int channel_id ++ ".json".
Proof.
  unfold get_text_game_path.
  destruct (os_path_join_plain
              [str_int guild_id; "games"; "textadventure";
               str_int channel_id ++ ".json"] DATA_DIR data_dir_open)
    as [-> _].
  - simpl. now rewrite str_int_plain, json_of_int_plain.
  - simpl. rewrite !append_assoc. reflexivity.
Qed.

Lemma get_player_cards_dir_eq (user_id : Z) :
  get_player_cards_dir user_id
  = DATA_DIR ++ "/" ++ "player_cards/" ++ str_int user_id
  /\ open_path (get_player_cards_dir user_id).
Proof.
  unfold get_player_cards_dir.
  destruct (os_path_join_plain ["player_cards"; str_int user_id]
              DATA_DIR data_dir_open) as [Heq Hopen].
  - simpl. now rewrite str_int_plain.
  - split; [|exact Hopen].
    rewrite Heq. simpl. rewrite !append_assoc. reflexivity.
Qed.

(** Two paths under the data directory are equal only if what follows the
    directory is. *)
Lemma under_data_dir_inj (a b : string) :
  DATA_DIR ++ "/" ++ a = DATA_DIR ++ "/" ++ b -> a = b.
Proof.
  intros H. apply append_inv_head in H. now injection H.
Qed.

Lemma str_int_no_char (c : ascii) (n : Z) :
  numeral_char c = false -> has_char c (str_int n) = false.
Proof. apply all_chars_has_char, str_int_numeral. Qed.

(** A numeral followed by a separator and more: the numeral and the rest
    can be read back. *)
Lemma numeral_then_slash_inj (n n' : Z) (r r' : string) :
  str_int n ++ "/" ++ r = str_int n' ++ "/" ++ r' -> n = n' /\ r = r'.
Proof.
  intros H.
  apply split_at_char in H as [Hn ->];
    try (apply str_int_no_char; reflexivity).
  split; [now apply str_int_inj | reflexivity].
Qed.

Lemma json_of_int_inj (n n' : Z) :
  str_int n ++ ".json" = str_int n' ++ ".json" -> n = n'.
Proof.
  intros H. apply append_inv_tail in H. now apply str_int_inj.
Qed.

Lemma eqb_of_iff (a b : string) (c : bool) :
  (a = b <-> c = true) -> String.eqb a b = c.
Proof.
  intros [H1 H2].
  destruct (String.eqb_spec a b) as [Hab|Hab], c; auto.
  specialize (H1 Hab). discriminate.
Qed.

Lemma same_ids (n n' m m' : Z) :
  (n = n' /\ m = m') <-> (n =? n') && (m =? m') = true.
Proof. rewrite andb_true_iff, !Z.eqb_eq. reflexivity. Qed.

(** X10.  Two channels have the same history file exactly when they are the
    same channel of the same guild. *)
Theorem get_channel_path_injective
        (guild_id channel_id guild_id' channel_id' : Z) :
  String.eqb (get_channel_path guild_id channel_id)
             (get_channel_path guild_id' channel_id')
  = (guild_id =? guild_id') && (channel_id =? channel_id').
Proof.
  apply eqb_of_iff. rewrite <- same_ids, !get_channel_path_eq.
  split; [|now intros [-> ->]].
  intros H.
  apply under_data_dir_inj, numeral_then_slash_inj in H as [-> H].
  split; [reflexivity | now apply json_of_int_inj].
Qed.

(** X11.  Two monkey's-paw games have the same file exactly when they are
    of the same user in the same guild, and two text adventures exactly
    when they are of the same channel in the same guild. *)
Theorem game_paths_injective (guild_id id guild_id' id' : Z) :
  String.eqb (get_game_path guild_id id) (get_game_path guild_id' id')
  = (guild_id =? guild_id') && (id =? id')
  /\ String.eqb (get_text_game_path guild_id id)
                (get_text_game_path guild_id' id')
     = (guild_id =? guild_id') && (id =? id').
Proof.
  split; apply eqb_of_iff; rewrite <- same_ids;
    rewrite ?get_game_path_eq, ?get_text_game_path_eq;
    (split; [|now intros [-> ->]]);
    intros H;
    apply under_data_dir_inj, numeral_then_slash_inj in H as [-> H];
    (split; [reflexivity|]);
    simpl in H; injection H as H; now apply json_of_int_inj.
Qed.

Lemma json_of_int_not_role_file (n : Z) :
  str_int n ++ ".json" <> "ai_manager_role.json".
Proof.
  change "ai_manager_role.json" with ("ai_manager_role" ++ ".json").
  intros H. apply append_inv_tail in H.
  pose proof (str_int_numeral n) as Hn. rewrite H in Hn. discriminate.
Qed.

Lemma json_of_int_no_slash (n : Z) (s : string) :
  has_char "/" s = true -> str_int n ++ ".json" <> s.
Proof.
  intros Hs H. rewrite <- H, has_char_append in Hs.
  rewrite (str_int_no_char "/" n eq_refl) in Hs. discriminate.
Qed.

(** X12.  The files kept for a guild never coincide across kinds: a
    channel's history file is never a role file, a monkey's-paw game or a
    text adventure, whatever the ids, and neither are those one
    another. *)
Theorem guild_files_disjoint (g c g' u : Z) :
  String.eqb (get_channel_path g c) (ai_manager_role_file g') = false
  /\ String.eqb (get_channel_path g c) (get_game_path g' u) = false
  /\ String.eqb (get_channel_path g c) (get_text_game_path g' u) = false
  /\ String.eqb (ai_manager_role_file g) (get_game_path g' u) = false
  /\ String.eqb (ai_manager_role_file g) (get_text_game_path g' u) = false
  /\ String.eqb (get_game_path g c) (get_text_game_path g' u) = false.
Proof.
  rewrite !get_channel_path_eq, !ai_manager_role_file_eq,
    !get_game_path_eq, !get_text_game_path_eq.
  repeat split; apply String.eqb_neq; intros H;
    apply under_data_dir_inj, numeral_then_slash_inj in H as [_ H].
  - exact (json_of_int_not_role_file _ H).
  - revert H. apply json_of_int_no_slash.
    rewrite has_char_append. reflexivity.
  - revert H. apply json_of_int_no_slash.
    rewrite has_char_append. reflexivity.
  - simpl in H. discriminate.
  - simpl in H. discriminate.
  - simpl in H. discriminate.
Qed.

Lemma get_player_card_path_eq (user_id : Z) (card_id : string) :
  has_char "/" card_id = false ->
  get_player_card_path user_id card_id
  = DATA_DIR ++ "/" ++ "player_cards/" ++ str_int user_id ++ "/"
      ++ card_id ++ ".json".
Proof.
  intros Hcard. unfold get_player_card_path.
  destruct (get_player_cards_dir_eq user_id) as [Hdir Hopen].
  destruct (os_path_join_plain [card_id ++ ".json"] _ Hopen) as [-> _].
  - simpl. now rewrite json_name_plain.
  - simpl. rewrite Hdir, !append_assoc. reflexivity.
Qed.

(** X13.  For card ids without separator, two cards have the same file
    exactly when they are the same card of the same user, and a card file
    is never a channel's history file. *)
Theorem get_player_card_path_injective
        (user_id user_id' : Z) (card_id card_id' : string) (g c : Z) :
  has_char "/" card_id = false ->
  has_char "/" card_id' = false ->
  String.eqb (get_player_card_path user_id card_id)
             (get_player_card_path user_id' card_id')
  = (user_id =? user_id') && String.eqb card_id card_id'
  /\ String.eqb (get_player_card_path user_id card_id)
                (get_channel_path g c) = false.
Proof.
  intros Hcard Hcard'.
  rewrite !get_player_card_path_eq, get_channel_path_eq by assumption.
  split.
  - apply eqb_of_iff.
    rewrite andb_true_iff, Z.eqb_eq, String.eqb_eq.
    split; [|now intros [-> ->]].
    intros H. apply under_data_dir_inj in H. simpl in H.
    injection H as H.
    apply numeral_then_slash_inj in H as [-> H].
    split; [reflexivity | now apply append_inv_tail in H].
  - apply String.eqb_neq. intros H.
    apply under_data_dir_inj in H. symmetry in H.
    change ("player_cards/" ++ str_int user_id ++ "/" ++ card_id ++ ".json")
      with ("player_cards" ++ "/" ++ str_int user_id ++ "/" ++ card_id
              ++ ".json") in H.
    apply split_at_char in H as [H _];
      [|apply str_int_no_char; reflexivity | reflexivity].
    pose proof (str_int_numeral g) as Hg. rewrite H in Hg. discriminate.
Qed.


End PathProperties.

(** ** The permission check *)

Section PermissionProperties.

Variable ROOT_DIR : string.
Variable path_exists : string -> bool.
Variable load_json : string -> result pyval.

Local Abbreviation ai_manager_role_file := (ai_manager_role_file ROOT_DIR).
Local Abbreviation get_ai_manager_role :=
  (get_ai_manager_role ROOT_DIR path_exists load_json).
Local Abbreviation no_role_on_file :=
  (no_role_on_file ROOT_DIR path_exists load_json).
Local Abbreviation is_admin_or_ai_manager :=
  (is_admin_or_ai_manager ROOT_DIR path_exists load_json).

Lemma get_ai_manager_role_none (guild_id : Z) :
  no_role_on_file guild_id -> get_ai_manager_role guild_id = PNone.
Proof.
  unfold get_ai_manager_role.
  intros [Hmissing|e He|data Hdata Hobj|d Hdata Hrole].
  - now rewrite Hmissing.
  - rewrite He. now destruct (path_exists _).
  - rewrite Hdata. destruct (path_exists _); [|reflexivity]. simpl.
    destruct data; try reflexivity. now destruct (Hobj d).
  - rewrite Hdata, Hrole. now destruct (path_exists _).
Qed.

(** X15.  When the guild has no role on file (no file, a file that cannot
    be read or parsed, one that holds no JSON object, or an object without
    [role_id]), the check lets administrators through and raises
    CheckFailure for everyone else, whatever their roles. *)
Theorem check_without_role_on_file (i : interaction) :
  no_role_on_file (guild_id_of i) ->
  is_admin_or_ai_manager i
  = if administrator (user i)
    then CheckReturns true
    else CheckFailure "You do not have permission to run this command.".
Proof.
  intros Hnone. unfold is_admin_or_ai_manager.
  rewrite (get_ai_manager_role_none _ Hnone). reflexivity.
Qed.

Lemma get_ai_manager_role_stored (guild_id : Z)
      (d : list (string * pyval)) (v : pyval) :
  path_exists (ai_manager_role_file guild_id) = true ->
  load_json (ai_manager_role_file guild_id) = Ok (PDict d) ->
  dict_get "role_id" d = Some v ->
  get_ai_manager_role guild_id = v.
Proof.
  unfold get_ai_manager_role. intros -> -> ->. reflexivity.
Qed.

Lemma existsb_eqb_in (n : Z) (l : list Z) :
  existsb (fun m => m =? n) l = true <-> In n l.
Proof.
  rewrite existsb_exists. split.
  - intros (m & Hin & Heq). apply Z.eqb_eq in Heq. now subst.
  - intros Hin. exists n. rewrite Z.eqb_refl. auto.
Qed.

(** X16.  When the role file stores an integer role id, the check returns
    True exactly for administrators and for members who have a role with
    that id, provided the id is not 0; for all others it raises
    CheckFailure, and it never returns False. *)
Theorem check_with_stored_role
        (i : interaction) (d : list (string * pyval)) (role_id : Z) :
  path_exists (ai_manager_role_file (guild_id_of i)) = true ->
  load_json (ai_manager_role_file (guild_id_of i)) = Ok (PDict d) ->
  dict_get "role_id" d = Some (PInt role_id) ->
  (is_admin_or_ai_manager i = CheckReturns true
   <-> administrator (user i) = true
       \/ (role_id <> 0 /\ In role_id (role_ids (user i))))
  /\ (is_admin_or_ai_manager i = CheckReturns true
      \/ is_admin_or_ai_manager i
         = CheckFailure "You do not have permission to run this command.").
Proof.
  intros Hexists Hload Hrole. unfold is_admin_or_ai_manager.
  rewrite (get_ai_manager_role_stored _ _ _ Hexists Hload Hrole).
  destruct (administrator (user i)); [split; [split|]; auto|].
  simpl.
  destruct (negb (role_id =? 0)
            && existsb (fun m => m =? role_id) (role_ids (user i)))
    eqn:Hcheck.
  - split; [|auto]. split; [|reflexivity]. intros _. right.
    apply andb_true_iff in Hcheck as [Hnz Hin].
    apply negb_true_iff, Z.eqb_neq in Hnz.
    apply existsb_eqb_in in Hin. auto.
  - split; [|auto]. split; [discriminate|].
    intros [Hadmin|[Hnz Hin]]; [discriminate|].
    apply Z.eqb_neq in Hnz. apply existsb_eqb_in in Hin.
    rewrite Hnz, Hin in Hcheck. discriminate.
Qed.

(** X17.  When the role file stores the role id as a string, no role
    matches it: only administrators pass the check. *)
Theorem check_with_text_role
        (i : interaction) (d : list (string * pyval)) (role_id : string) :
  path_exists (ai_manager_role_file (guild_id_of i)) = true ->
  load_json (ai_manager_role_file (guild_id_of i)) = Ok (PDict d) ->
  dict_get "role_id" d = Some (PStr role_id) ->
  is_admin_or_ai_manager i
  = if administrator (user i)
    then CheckReturns true
    else CheckFailure "You do not have permission to run this command.".
Proof.
  intros Hexists Hload Hrole. unfold is_admin_or_ai_manager.
  rewrite (get_ai_manager_role_stored _ _ _ Hexists Hload Hrole).
  destruct (administrator (user i)); [reflexivity|].
  replace (existsb (fun m => int_eq m (PStr role_id)) (role_ids (user i)))
    with false.
  - now rewrite andb_false_r.
  - induction (role_ids (user i)); simpl; auto.
Qed.

End PermissionProperties.

(** ** The narrator prompt *)

Lemma prefix_append (a b : string) : prefix a (a ++ b) = true.
Proof.
  induction a as [|x a IH]; simpl; [now destruct b|].
  destruct (ascii_dec x x); [exact IH | congruence].
Qed.

(** The characters of a matched occurrence are passed over. *)
Lemma replace_from_skip (old new passed rest : string) :
  replace_from old new (String.length passed) (passed ++ rest)
  = replace_from old new 0 rest.
Proof.
  induction passed as [|x passed IH]; simpl; [|exact IH].
  destruct rest; reflexivity.
Qed.

(** An occurrence at the head is replaced, and the search goes on behind
    it. *)
Lemma str_replace_match (c : ascii) (old' new rest : string) :
  str_replace (String c old' ++ rest) (String c old') new
  = new ++ str_replace rest (String c old') new.
Proof.
  unfold str_replace.
  change (replace_from (String c old') new 0 (String c old' ++ rest))
    with (if prefix (String c old') (String c old' ++ rest)
          then new ++ replace_from (String c old') new
                        (String.length (String c old') - 1) (old' ++ rest)
          else String c (replace_from (String c old') new 0 (old' ++ rest))).
  rewrite prefix_append.
  replace (String.length (String c old') - 1)%nat with (String.length old')
    by (simpl; lia).
  now rewrite replace_from_skip.
Qed.

(** A character other than the first of [old] is kept. *)
Lemma str_replace_pass (c x : ascii) (old' new rest : string) :
  x <> c ->
  str_replace (String x rest) (String c old') new
  = String x (str_replace rest (String c old') new).
Proof.
  intros Hx. unfold str_replace. simpl.
  destruct (ascii_dec c x); [congruence | reflexivity].
Qed.

(** A stretch without the first character of [old] is kept. *)
Lemma str_replace_text (c : ascii) (old' new text rest : string) :
  has_char c text = false ->
  str_replace (text ++ rest) (String c old') new
  = text ++ str_replace rest (String c old') new.
Proof.
  induction text as [|x text IH]; intros Htext; [reflexivity|].
  simpl in Htext. apply orb_false_elim in Htext as [Hx Htext].
  change (String x text ++ rest) with (String x (text ++ rest)).
  rewrite str_replace_pass by (now apply Ascii.eqb_neq).
  simpl. now rewrite (IH Htext).
Qed.

Lemma str_replace_empty (old new : string) : str_replace "" old new = "".
Proof. reflexivity. Qed.

Lemma written_cons (s : segment) (rest : list segment) :
  written (s :: rest) = segment_source s ++ written rest.
Proof. reflexivity. Qed.

Lemma half_filled_cons (name : string) (s : segment) (rest : list segment) :
  half_filled name (s :: rest)
  = segment_half_filled name s ++ half_filled name rest.
Proof. reflexivity. Qed.

Lemma filled_cons (name : string) (s : segment) (rest : list segment) :
  filled name (s :: rest) = segment_filled name s ++ filled name rest.
Proof. reflexivity. Qed.

(** The upper-case placeholder is no occurrence of the lower-case one. *)
Lemma str_replace_other_placeholder (name rest : string) :
  str_replace ("{Player}" ++ rest) "{player}" name
  = "{Player}" ++ str_replace rest "{player}" name.
Proof.
  change ("{Player}" ++ rest) with (String "{" ("Player}" ++ rest)).
  unfold str_replace at 1.
  change (replace_from "{player}" name 0 (String "{" ("Player}" ++ rest)))
    with (String "{" (str_replace ("Player}" ++ rest) "{player}" name)).
  now rewrite (str_replace_text "{" "player}" name "Player}" rest eq_refl).
Qed.

Lemma first_replacement (name : string) (segments : list segment) :
  forallb brace_free_text segments = true ->
  str_replace (written segments) "{player}" name = half_filled name segments.
Proof.
  induction segments as [|s rest IH]; intros Hfree; [reflexivity|].
  simpl in Hfree. apply andb_true_iff in Hfree as [Hs Hrest].
  specialize (IH Hrest).
  rewrite written_cons, half_filled_cons.
  destruct s as [t| |]; cbn [segment_source segment_half_filled].
  - simpl in Hs. apply negb_true_iff in Hs.
    rewrite str_replace_text by exact Hs. now rewrite IH.
  - rewrite (str_replace_match "{" "player}"). now rewrite IH.
  - rewrite str_replace_other_placeholder. now rewrite IH.
Qed.

Lemma second_replacement (name : string) (segments : list segment) :
  forallb brace_free_text segments = true ->
  has_char "{" name = false ->
  str_replace (half_filled name segments) "{Player}" name
  = filled name segments.
Proof.
  intros Hfree Hname.
  induction segments as [|s rest IH]; [reflexivity|].
  simpl in Hfree. apply andb_true_iff in Hfree as [Hs Hrest].
  specialize (IH Hrest).
  rewrite half_filled_cons, filled_cons.
  destruct s as [t| |]; cbn [segment_filled segment_half_filled].
  - simpl in Hs. apply negb_true_iff in Hs.
    rewrite str_replace_text by exact Hs. now rewrite IH.
  - rewrite str_replace_text by exact Hname. now rewrite IH.
  - rewrite (str_replace_match "{" "Player}"). now rewrite IH.
Qed.

(** X18.  In a description made of brace-free text and of the placeholders
    {player} and {Player}, [render] puts the player's name in place of
    every placeholder and leaves the text as it is, provided the name
    holds no opening brace. *)
Theorem render_fills_placeholders (name : string) (segments : list segment) :
  forallb brace_free_text segments = true ->
  has_char "{" name = false ->
  render (written segments) name = filled name segments.
Proof.
  intros Hfree Hname. unfold render.
  rewrite (first_replacement name segments Hfree).
  exact (second_replacement name segments Hfree Hname).
Qed.

(** X19.  The two placeholders are filled one after the other: a name that
    itself holds {Player} is filled in again where it was put for
    {player}, so that it ends up nested in itself. *)
Theorem render_refills_name (before after a b : string) :
  has_char "{" before = false ->
  has_char "{" after = false ->
  has_char "{" a = false ->
  has_char "{" b = false ->
  render (before ++ "{player}" ++ after) (a ++ "{Player}" ++ b)
  = before ++ a ++ (a ++ "{Player}" ++ b) ++ b ++ after.
Proof.
  intros Hbefore Hafter Ha Hb. unfold render.
  rewrite (str_replace_text "{" "player}" _ before _ Hbefore).
  rewrite (str_replace_match "{" "player}").
  rewrite <- (append_nil_r after) at 1.
  rewrite (str_replace_text "{" "player}" _ after "" Hafter).
  rewrite str_replace_empty, append_nil_r.
  rewrite (str_replace_text "{" "Player}" _ before _ Hbefore).
  rewrite !append_assoc.
  rewrite (str_replace_text "{" "Player}" _ a _ Ha).
  rewrite (str_replace_match "{" "Player}").
  rewrite (str_replace_text "{" "Player}" _ b _ Hb).
  rewrite <- (append_nil_r after) at 1.
  rewrite (str_replace_text "{" "Player}" _ after "" Hafter).
  rewrite str_replace_empty, append_nil_r.
  rewrite !append_assoc. reflexivity.
Qed.

Lemma roster_lines_ok (ps : list player) :
  is_ok (roster_lines ps) = forallb complete_player ps.
Proof.
  induction ps as [|p rest IH]; [reflexivity|].
  simpl. rewrite <- IH.
  unfold roster_line, player_getitem, complete_player.
  destruct (player_get "name" p); simpl; [|reflexivity].
  destruct (player_get "description" p); simpl; [|reflexivity].
  now destruct (roster_lines rest).
Qed.


(** X21.  For players whose names and descriptions hold no brace but those
    of the placeholders, the prompt is the fixed header, one line
    [- name: description] per player in the order of the dict, each
    description with the name in place of its placeholders, and the fixed
    footer. *)
Theorem build_game_system_prompt_roster
        {K : Type} (players : list (K * player)) (sheets : list player_sheet) :
  Forall2 (fun kp sheet => player_of_sheet (snd kp) sheet) players sheets ->
  build_game_system_prompt players
  = Ok (prompt_header ++ String.concat newline (map roster_entry sheets)
          ++ prompt_footer).
Proof.
  intros Hsheets. unfold build_game_system_prompt.
  replace (roster_lines (map snd players))
    with (Ok (A := list string) (map roster_entry sheets)); [reflexivity|].
  induction Hsheets as [|[k p] [name segments] players sheets Hp _ IH];
    [reflexivity|].
  destruct Hp as (Hname & Hdesc & Hfree & Htext). simpl in *.
  unfold roster_line, player_getitem. rewrite Hname, Hdesc. simpl.
  rewrite <- IH. simpl. unfold roster_entry, render. simpl.
  rewrite (first_replacement name segments Htext).
  now rewrite (second_replacement name segments Htext Hfree).
Qed.

(** ** The guild directory *)

Section GuildDirectory.

Variable ROOT_DIR : string.

Lemma prefix_of_append (a b c : string) : c = a ++ b -> prefix a c = true.
Proof. intros ->. apply prefix_append. Qed.

(** X22.  Every file kept for a guild lies under that guild's directory:
    the history file of each of its channels, its role file, and its game
    files, although the game paths are not built from [get_guild_dir]. *)
Theorem guild_files_under_guild_dir (guild_id channel_id user_id : Z) :
  prefix (get_guild_dir ROOT_DIR guild_id ++ "/")
         (get_channel_path ROOT_DIR guild_id channel_id) = true
  /\ prefix (get_guild_dir ROOT_DIR guild_id ++ "/")
            (ai_manager_role_file ROOT_DIR guild_id) = true
  /\ prefix (get_guild_dir ROOT_DIR guild_id ++ "/")
            (get_game_path ROOT_DIR guild_id user_id) = true
  /\ prefix (get_guild_dir ROOT_DIR guild_id ++ "/")
            (get_text_game_path ROOT_DIR guild_id channel_id) = true.
Proof.
  destruct (get_guild_dir_eq ROOT_DIR guild_id) as [-> _].
  rewrite get_channel_path_eq, ai_manager_role_file_eq, get_game_path_eq,
    get_text_game_path_eq.
  repeat split.
  - apply (prefix_of_append _ (str_int channel_id ++ ".json")).
    now rewrite !append_assoc.
  - apply (prefix_of_append _ "ai_manager_role.json").
    now rewrite !append_assoc.
  - apply (prefix_of_append _ ("games/monkeyspaw/" ++ str_int user_id
                                 ++ ".json")).
    now rewrite !append_assoc.
  - apply (prefix_of_append _ ("games/textadventure/"
                                 ++ str_int channel_id ++ ".json")).
    now rewrite !append_assoc.
Qed.

End GuildDirectory.

(** ** The other functions on concrete inputs *)

Lemma get_player_card_path_injective_witness :
  has_char "/" "ace" = false
  /\ has_char "/" "king" = false
  /\ (String.eqb (get_player_card_path "/srv/bot" 5 "ace")
                 (get_player_card_path "/srv/bot" 5 "king")
      = (5 =? 5) && String.eqb "ace" "king"
      /\ String.eqb (get_player_card_path "/srv/bot" 5 "ace")
                    (get_channel_path "/srv/bot" 5 12) = false).
Proof.
  split; [reflexivity|]. split; [reflexivity|].
  apply (get_player_card_path_injective "/srv/bot" 5 5 "ace" "king" 5 12);
    reflexivity.
Defined.


(** No role file: the member with roles 3 and 7 is turned away. *)
Lemma check_without_role_on_file_witness :
  no_role_on_file "/srv/bot" no_file_exists load_role_7
    (guild_id_of manager_interaction)
  /\ is_admin_or_ai_manager "/srv/bot" no_file_exists load_role_7
       manager_interaction
     = CheckFailure "You do not have permission to run this command.".
Proof.
  assert (Hnone : no_role_on_file "/srv/bot" no_file_exists load_role_7
                    (guild_id_of manager_interaction)).
  { apply role_file_missing. reflexivity. }
  split; [exact Hnone|].
  apply (check_without_role_on_file "/srv/bot" no_file_exists load_role_7
           manager_interaction Hnone).
Defined.

(** The role 7 on file: the member with roles 3 and 7 passes. *)
Lemma check_with_stored_role_witness :
  manager_file_exists
    (ai_manager_role_file "/srv/bot" (guild_id_of manager_interaction))
  = true
  /\ load_role_7
       (ai_manager_role_file "/srv/bot" (guild_id_of manager_interaction))
     = Ok (PDict [("role_id", PInt 7)])
  /\ dict_get "role_id" [("role_id", PInt 7)] = Some (PInt 7)
  /\ ((is_admin_or_ai_manager "/srv/bot" manager_file_exists load_role_7
         manager_interaction = CheckReturns true
       <-> administrator (user manager_interaction) = true
           \/ (7 <> 0 /\ In 7 (role_ids (user manager_interaction))))
      /\ (is_admin_or_ai_manager "/srv/bot" manager_file_exists load_role_7
            manager_interaction = CheckReturns true
          \/ is_admin_or_ai_manager "/srv/bot" manager_file_exists
               load_role_7 manager_interaction
             = CheckFailure
                 "You do not have permission to run this command.")).
Proof.
  repeat (split; [reflexivity|]).
  apply (check_with_stored_role "/srv/bot" manager_file_exists load_role_7
           manager_interaction [("role_id", PInt 7)] 7); reflexivity.
Defined.

(** The role 7 on file as the string "7": the same member is turned
    away. *)
Lemma check_with_text_role_witness :
  manager_file_exists
    (ai_manager_role_file "/srv/bot" (guild_id_of manager_interaction))
  = true
  /\ load_role_text
       (ai_manager_role_file "/srv/bot" (guild_id_of manager_interaction))
     = Ok (PDict [("role_id", PStr "7")])
  /\ dict_get "role_id" [("role_id", PStr "7")] = Some (PStr "7")
  /\ is_admin_or_ai_manager "/srv/bot" manager_file_exists load_role_text
       manager_interaction
     = CheckFailure "You do not have permission to run this command.".
Proof.
  repeat (split; [reflexivity|]).
  apply (check_with_text_role "/srv/bot" manager_file_exists load_role_text
           manager_interaction [("role_id", PStr "7")] "7"); reflexivity.
Defined.

Lemma render_fills_placeholders_witness :
  forallb brace_free_text ann_description = true
  /\ has_char "{" "Ann" = false
  /\ render "{Player} follows {player}'s map." "Ann"
     = "Ann follows Ann's map.".
Proof.
  split; [reflexivity|]. split; [reflexivity|].
  apply (render_fills_placeholders "Ann" ann_description); reflexivity.
Defined.

Lemma render_refills_name_witness :
  has_char "{" "Hi " = false
  /\ has_char "{" "!" = false
  /\ has_char "{" "<" = false
  /\ has_char "{" ">" = false
  /\ render "Hi {player}!" "<{Player}>" = "Hi <<{Player}>>!".
Proof.
  repeat (split; [reflexivity|]).
  apply (render_refills_name "Hi " "!" "<" ">"); reflexivity.
Defined.

Lemma build_game_system_prompt_roster_witness :
  Forall2 (fun kp sheet => player_of_sheet (snd kp) sheet)
          [(1, ann); (2, bo)]
          [("Ann", ann_description); ("Bo", [Text "A quiet smith."])]
  /\ build_game_system_prompt [(1, ann); (2, bo)]
     = Ok (prompt_header
             ++ "- Ann: Ann follows Ann's map." ++ newline
             ++ "- Bo: A quiet smith."
             ++ prompt_footer).
Proof.
  assert (Hsheets :
            Forall2 (fun kp sheet => player_of_sheet (snd kp) sheet)
                    [(1, ann); (2, bo)]
                    [("Ann", ann_description);
                     ("Bo", [Text "A quiet smith."])]).
  { repeat constructor. }
  split; [exact Hsheets|].
  apply (build_game_system_prompt_roster [(1, ann); (2, bo)] _ Hsheets).
Defined.
